(** * new_content.py: scaffolding a post or a note

    A shallow embedding of [misc/scripts/new_content.py] and the
    properties of its directory names, slugs, frontmatter and error
    paths.

    Conventions of the embedding.
    - A Python [str] is a [string]; its characters are read as the code
      points 0..255 (Latin-1), which is where [str.lower], [str.strip]
      and [repr] are modelled.
    - A Python [int] is a [Z].
    - The process state (standard input, standard output, the clock and
      the file system) is threaded through a state-and-exception monad. *)

From Stdlib Require Import ZArith NArith Ascii String DecimalString Decimal.
From Stdlib Require Import DecimalPos DecimalN.
From stdpp Require Import base gmap strings list.

Local Open Scope Z_scope.

(** ** Python strings *)

Module PyStr.

Definition code (c : ascii) : N := N_of_ascii c.
Definition chr (n : N) : ascii := ascii_of_N n.

Definition dquote : ascii := "034"%char.
Definition squote : ascii := "039"%char.
Definition backslash : ascii := "092"%char.
Definition newline : ascii := "010"%char.
Definition tab : ascii := "009"%char.
Definition nul : ascii := "000"%char.

Definition DQ : string := String dquote "".
Definition NL : string := String newline "".
Definition TAB : string := String tab "".

Definition between (lo hi n : N) : bool := ((lo <=? n) && (n <=? hi))%N.

(** [str.isspace] on one character: the white space of [str.strip()]. *)
Definition isspace (c : ascii) : bool :=
  let n := code c in
  between 9 13 n || between 28 32 n || (n =? 133)%N || (n =? 160)%N.

(** [str.lower] on one character: A-Z, and the upper-case letters of
    Latin-1 (0xC0..0xDE but the multiplication sign 0xD7). *)
Definition lower_char (c : ascii) : ascii :=
  let n := code c in
  if between 65 90 n || (between 192 222 n && negb (n =? 215)%N)
  then chr (n + 32) else c.

Fixpoint map_chars (f : ascii -> ascii) (s : string) : string :=
  match s with
  | EmptyString => EmptyString
  | String c s' => String (f c) (map_chars f s')
  end.

(** [str.lower], character by character: on the code points 0..255 it
    keeps the length, which it does not on all of Unicode. *)
Definition lower (s : string) : string := map_chars lower_char s.

Fixpoint lstrip (s : string) : string :=
  match s with
  | EmptyString => EmptyString
  | String c s' => if isspace c then lstrip s' else s
  end.

Fixpoint rstrip (s : string) : string :=
  match s with
  | EmptyString => EmptyString
  | String c s' =>
      match rstrip s' with
      | EmptyString => if isspace c then EmptyString else String c EmptyString
      | r => String c r
      end
  end.

Definition strip (s : string) : string := rstrip (lstrip s).

(** [s.replace(old, new)] for a non-empty [old]: left to right, without
    overlap. [skip] counts the characters of a match still to drop. *)
Fixpoint replace_from (old new : string) (skip : nat) (s : string) : string :=
  match s with
  | EmptyString => EmptyString
  | String c s' =>
      match skip with
      | S k => replace_from old new k s'
      | O =>
          if String.prefix old s
          then new +:+ replace_from old new (Nat.pred (String.length old)) s'
          else String c (replace_from old new O s')
      end
  end.

(** [s.replace("", new)] puts [new] before every character and at the end. *)
Fixpoint intersperse (new s : string) : string :=
  match s with
  | EmptyString => new
  | String c s' => new +:+ String c (intersperse new s')
  end.

Definition replace (old new s : string) : string :=
  match old with
  | EmptyString => intersperse new s
  | _ => replace_from old new O s
  end.

Fixpoint repeat_char (c : ascii) (n : nat) : string :=
  match n with
  | O => EmptyString
  | S k => String c (repeat_char c k)
  end.

(** [str(n)] for a natural number. *)
Definition digits (n : N) : string := NilZero.string_of_uint (N.to_uint n).

(** [format(z, "0<width>d")]: the sign first, then zeros up to [width]
    characters in all, then the digits. [width = 0] is [str(z)]. *)
Definition format_d (width : nat) (z : Z) : string :=
  let sign := if z <? 0 then "-"%string else EmptyString in
  let ds := digits (Z.abs_N z) in
  sign +:+ repeat_char "0" (width - String.length sign - String.length ds) +:+ ds.

Definition str_int (z : Z) : string := format_d 0 z.

Fixpoint contains_char (c : ascii) (s : string) : bool :=
  match s with
  | EmptyString => false
  | String c' s' => Ascii.eqb c c' || contains_char c s'
  end.

(** [sub in s] *)
Fixpoint substring_of (sub s : string) : bool :=
  String.prefix sub s ||
  match s with
  | EmptyString => false
  | String _ s' => substring_of sub s'
  end.

Fixpoint join (sep : string) (l : list string) : string :=
  match l with
  | [] => EmptyString
  | [x] => x
  | x :: l' => x +:+ sep +:+ join sep l'
  end.

Definition hex_digit (n : N) : ascii :=
  if (n <? 10)%N then chr (48 + n) else chr (87 + n).

(** [str.isprintable] on one character. *)
Definition isprintable (c : ascii) : bool :=
  let n := code c in
  between 32 126 n || (between 161 255 n && negb (n =? 173)%N).

Definition repr_char (quote c : ascii) : string :=
  if Ascii.eqb c quote || Ascii.eqb c backslash then String backslash (String c "")
  else if Ascii.eqb c tab then String backslash "t"
  else if Ascii.eqb c newline then String backslash "n"
  else if Ascii.eqb c "013" then String backslash "r"
  else if isprintable c then String c ""
  else String backslash
         (String "x" (String (hex_digit (code c / 16)) (String (hex_digit (code c mod 16)) ""))).

Fixpoint repr_body (quote : ascii) (s : string) : string :=
  match s with
  | EmptyString => EmptyString
  | String c s' => repr_char quote c +:+ repr_body quote s'
  end.

(** [repr(s)]: single quotes, unless [s] has a single quote and no
    double quote. *)
Definition repr (s : string) : string :=
  let quote :=
    if contains_char squote s && negb (contains_char dquote s)
    then dquote else squote in
  String quote (repr_body quote s) +:+ String quote "".

(** [str(l)] for a list of strings. *)
Definition str_list (l : list string) : string :=
  "[" +:+ join ", " (map repr l) +:+ "]".

(** Every character of [s] passes the test [P]. *)
Fixpoint all_chars (P : ascii -> bool) (s : string) : bool :=
match s with
| EmptyString => true
| String c s' => P c && all_chars P s'
end.

(** The characters [format_d] writes: a digit or the minus sign. *)
Definition is_decimal_char (c : ascii) : bool :=
between 48 57 (code c) || Ascii.eqb c "-".

End PyStr.

(** ** The process state: exceptions, file system, standard streams, clock *)

(** A path inside the file system, as its components innermost first, so
    that [os.path.split] is a pattern match: ["content/posts/x"] is
    [["x"; "posts"; "content"]]. An absolute path ends with the component
    [""], the root. *)
Abbreviation rpath := (list string).

Inductive exn : Type :=
| SystemExit (msg : string)          (* sys.exit(msg) *)
| ArgparseError (msg : string)       (* parser.error(msg) *)
| EOFError
| KeyError (key : string)
| ValueError (msg : string)
| FileExistsError (p : rpath)
| FileNotFoundError (p : rpath)
| NotADirectoryError (p : rpath)
| IsADirectoryError (p : rpath).

Definition is_OSError (e : exn) : bool :=
  match e with
  | FileExistsError _ | FileNotFoundError _
  | NotADirectoryError _ | IsADirectoryError _ => true
  | _ => false
  end.

Record datetime : Type := { dt_year : Z; dt_month : Z; dt_day : Z }.

(** [dirs] are the directories and [files] the regular files with their
    text. The names [.] and [..], symbolic links, permissions, size limits
    and the encoding of the text have no special treatment: a path is
    its list of names, and every text can be written. *)
Record filesystem : Type := { dirs : gset rpath; files : gmap rpath string }.

Module OS.
Import PyStr.

Fixpoint split_on (sep : ascii) (s : string) : list string :=
  match s with
  | EmptyString => [EmptyString]
  | String c s' =>
      if Ascii.eqb c sep then EmptyString :: split_on sep s'
      else match split_on sep s' with
           | x :: l => String c x :: l
           | [] => [String c EmptyString]
           end
  end.

Definition nonempty (s : string) : bool :=
  match s with EmptyString => false | _ => true end.

(** Repeated and trailing slashes do not count. The components [.] and
    [..] are kept as names, where the operating system would resolve
    them. *)
Definition rpath_of (p : string) : rpath :=
  rev ((if String.prefix "/" p then [EmptyString] else [])
         ++ filter (fun c => nonempty c = true) (split_on "/" p)).

Definition isdir_at (p : rpath) (s : filesystem) : bool :=
  bool_decide (p ∈ dirs s).

Definition isfile_at (p : rpath) (s : filesystem) : bool :=
  bool_decide (is_Some (files s !! p)).

Definition exists_at (p : rpath) (s : filesystem) : bool :=
  isdir_at p s || isfile_at p s.

(** [os.mkdir]. The working directory, [[]], is there. *)
Definition mkdir_at (p : rpath) (s : filesystem) : exn + filesystem :=
  match p with
  | [] => inl (FileNotFoundError p)
  | _ :: parent =>
      if exists_at p s then inl (FileExistsError p)
      else match parent with
           | _ :: _ =>
               if isdir_at parent s
               then inr {| dirs := {[ p ]} ∪ dirs s; files := files s |}
               else if isfile_at parent s then inl (NotADirectoryError p)
               else inl (FileNotFoundError p)
           | [] => inr {| dirs := {[ p ]} ∪ dirs s; files := files s |}
           end
  end.

(** [os.makedirs(name, exist_ok=True)] below the null-byte check: the
    missing ancestors first, then the directory itself; an [OSError] of
    the last [mkdir] is dropped when the directory is there. *)
Fixpoint makedirs_at (p : rpath) (s : filesystem) : exn + filesystem :=
  match p with
  | [] => mkdir_at [] s
  | _ :: head =>
      let above :=
        match head with
        | [] => inr s
        | _ :: _ =>
            if exists_at head s then inr s
            else match makedirs_at head s with
                 | inl (FileExistsError _) => inr s
                 | r => r
                 end
        end in
      match above with
      | inl e => inl e
      | inr s1 =>
          match mkdir_at p s1 with
          | inl e => if is_OSError e && isdir_at p s1 then inr s1 else inl e
          | inr s2 => inr s2
          end
      end
  end.

Definition has_nul (p : string) : bool := contains_char nul p.

(** [os.path.exists]: false on a path with a null byte. *)
Definition path_exists (p : string) (s : filesystem) : bool :=
  negb (has_nul p) && exists_at (rpath_of p) s.

(** [os.makedirs(p, exist_ok=True)]. The null byte is looked for first
    here, and an error leaves the file system as it was; [os.makedirs]
    itself makes the missing ancestors that have no null byte before its
    [mkdir] raises. *)
Definition makedirs (p : string) (s : filesystem) : exn + filesystem :=
  if has_nul p then inl (ValueError "embedded null byte")
  else makedirs_at (rpath_of p) s.

(** [os.path.join(a, b)] *)
Definition path_join (a b : string) : string :=
  if String.prefix "/" b then b
  else match a with
       | EmptyString => b
       | _ => if String.prefix "/" (String.rev a) then a +:+ b
              else a +:+ "/" +:+ b
       end.

(** [with open(p, "w") as f: f.write(text)]: the file is created or
    truncated, then holds [text]. The two steps are one here: a write
    that fails once the file is open, as on a text the encoding of the
    file cannot hold, is not modelled. *)
Definition write_text (p text : string) (s : filesystem) : exn + filesystem :=
  if has_nul p then inl (ValueError "embedded null byte")
  else
    let k := rpath_of p in
    if isdir_at k s then inl (IsADirectoryError k)
    else match k with
         | [] => inl (FileNotFoundError k)
         | _ :: [] => inr {| dirs := dirs s; files := <[ k := text ]> (files s) |}
         | _ :: parent =>
             if isdir_at parent s
             then inr {| dirs := dirs s; files := <[ k := text ]> (files s) |}
             else if isfile_at parent s then inl (NotADirectoryError k)
             else inl (FileNotFoundError k)
         end.

(** Every regular file of [s] is a regular file of [s']. *)
Definition keeps_files (s s' : filesystem) : Prop :=
∀ k, is_Some (files s !! k) → is_Some (files s' !! k).

End OS.

Record world : Type := {
  stdin : list string;          (* the lines still to be read *)
  stdout : list string;         (* what was written, oldest first *)
  clock : nat -> datetime;      (* the n-th reading of the clock *)
  ticks : nat;                  (* how often the clock was read *)
  fs : filesystem
}.

(** A computation either raises or returns, and leaves a world. *)
Definition M (A : Type) : Type := world -> (exn + A) * world.

#[global] Instance M_ret : MRet M := fun A (x : A) w => (inr x, w).

#[global] Instance M_bind : MBind M := fun A B (f : A -> M B) (m : M A) w =>
  match m w with
  | (inl e, w') => (inl e, w')
  | (inr x, w') => f x w'
  end.

Definition raise {A : Type} (e : exn) : M A := fun w => (inl e, w).

Definition with_fs (w : world) (s : filesystem) : world :=
  {| stdin := stdin w; stdout := stdout w; clock := clock w; ticks := ticks w; fs := s |}.

Definition write_stdout (text : string) : M unit := fun w =>
  (inr tt, {| stdin := stdin w; stdout := stdout w ++ [text];
              clock := clock w; ticks := ticks w; fs := fs w |}).

Definition print (text : string) : M unit := write_stdout (text +:+ PyStr.NL).

Definition read_line : M string := fun w =>
  match stdin w with
  | [] => (inl EOFError, w)
  | l :: rest =>
      (inr l, {| stdin := rest; stdout := stdout w;
                 clock := clock w; ticks := ticks w; fs := fs w |})
  end.

(** [input(prompt)] *)
Definition input (prompt : string) : M string :=
  write_stdout prompt;; read_line.

(** [datetime.now()] *)
Definition datetime_now : M datetime := fun w =>
  (inr (clock w (ticks w)),
   {| stdin := stdin w; stdout := stdout w;
      clock := clock w; ticks := S (ticks w); fs := fs w |}).

(** [sys.exit(msg)] with a string: the message goes to the standard
    error and the exit status is 1. *)
Definition sys_exit {A : Type} (msg : string) : M A := raise (SystemExit msg).

Definition os_path_exists (p : string) : M bool := fun w =>
  (inr (OS.path_exists p (fs w)), w).

Definition lift_fs (op : filesystem -> exn + filesystem) : M unit := fun w =>
  match op (fs w) with
  | inl e => (inl e, w)
  | inr s => (inr tt, with_fs w s)
  end.

Definition os_makedirs (p : string) : M unit := lift_fs (OS.makedirs p).
Definition open_w_write (p text : string) : M unit := lift_fs (OS.write_text p text).

(** [d[k]] on a dict given by its items in insertion order. *)
Fixpoint dict_get (d : list (string * string)) (k : string) : option string :=
  match d with
  | [] => None
  | (k', v) :: d' => if String.eqb k k' then Some v else dict_get d' k
  end.

Definition subscript (d : list (string * string)) (k : string) : M string :=
  match dict_get d k with
  | Some v => mret v
  | None => raise (KeyError k)
  end.

(** [strftime("%Y-%m-%d")], the year on four digits. *)
Definition strftime_Ymd (d : datetime) : string :=
  PyStr.format_d 4 (dt_year d) +:+ "-" +:+ PyStr.format_d 2 (dt_month d)
    +:+ "-" +:+ PyStr.format_d 2 (dt_day d).

(** How a run ends: the exit status of the process. *)
Definition exit_status (r : exn + unit) : Z :=
  match r with
  | inr _ => 0
  | inl (ArgparseError _) => 2
  | inl _ => 1
  end.

(** The message a run leaves on the standard error when it ends by
    [sys.exit] or by the argument parser. *)
Definition error_message (r : exn + unit) : option string :=
  match r with
  | inl (SystemExit msg) | inl (ArgparseError msg) => Some msg
  | _ => None
  end.

(** ** The program *)

Import PyStr.

Definition dir_name_of (title : string) (year month : Z) : string :=
  lower (str_int year +:+ "_" +:+ format_d 2 month +:+ "_" +:+ replace " " "_" title).

Definition slug_of (title : string) : string := lower (replace " " "-" title).

Definition frontmatter_of (title date content_type slug : string) : string :=
  "+++" +:+ NL +:+
  "title = " +:+ DQ +:+ title +:+ DQ +:+ NL +:+
  "date = " +:+ DQ +:+ date +:+ DQ +:+ NL +:+
  "summary = " +:+ DQ +:+ DQ +:+ NL +:+
  "tags = []" +:+ NL +:+
  "type = " +:+ DQ +:+ content_type +:+ DQ +:+ NL +:+
  "toc = false" +:+ NL +:+
  "readTime = true" +:+ NL +:+
  "autonumber = false" +:+ NL +:+
  "showTags = true" +:+ NL +:+
  "slug = " +:+ DQ +:+ slug +:+ DQ +:+ NL +:+
  "+++" +:+ NL +:+
  NL.

Definition init_content (title : string) (year month : Z) (content_type : string)
    (content_types_to_dir : list (string * string)) : M unit :=
  d ← subscript content_types_to_dir content_type;
  let base_dir := "content/" +:+ d in
  there ← os_path_exists base_dir;
  if negb there
  then sys_exit ("Error: directory '" +:+ base_dir +:+ "' does not exist")
  else
    let dir_name := dir_name_of title year month in
    let dir_path := OS.path_join base_dir dir_name in
    os_makedirs dir_path;;
    let index_file_path := OS.path_join dir_path "index.md" in
    today ← datetime_now;
    let date := strftime_Ymd today in
    let slug := slug_of title in
    let frontmatter := frontmatter_of title date content_type slug in
    open_w_write index_file_path frontmatter;;
    print ("New " +:+ content_type +:+ " created");;
    print (TAB +:+ "title:" +:+ TAB +:+ title);;
    print (TAB +:+ "dir:" +:+ TAB +:+ dir_name);;
    print (TAB +:+ "slug:" +:+ TAB +:+ slug);;
    print (TAB +:+ "path:" +:+ TAB +:+ index_file_path).

(** The command line after [argparse] converted [--year] and [--month]
    with [int]; [None] is an option that was not given. *)
Record namespace : Type := {
  arg_title : option string;
  arg_type : option string;
  arg_year : option Z;
  arg_month : option Z
}.

(** [parser.parse_args()]: the one check it makes on the values is the
    [choices] of [--type]. *)
Definition parse_args (choices : list string) (argv : namespace) : M namespace :=
  match arg_type argv with
  | Some v =>
      if bool_decide (v ∈ choices) then mret argv
      else raise (ArgparseError
                    ("argument --type: invalid choice: " +:+ repr v +:+
                     " (choose from " +:+ join ", " (map repr choices) +:+ ")"))
  | None => mret argv
  end.

(** [a or b] on an optional string: [None] and [""] are false. *)
Definition or_str (a : option string) (b : M string) : M string :=
  match a with
  | Some (String c s) => mret (String c s)
  | _ => b
  end.

(** [a or b] on an optional integer: [None] and [0] are false. *)
Definition or_int (a : option Z) (b : Z) : Z :=
  match a with
  | Some 0 | None => b
  | Some z => z
  end.

Definition content_types_to_dir : list (string * string) :=
  [("post", "posts"); ("note", "notes")]%string.

Definition content_types : list string := map fst content_types_to_dir.

Definition main (argv : namespace) : M unit :=
  args ← parse_args content_types argv;
  t ← or_str (arg_title args) (input "Enter working title: ");
  let title := strip t in
  if String.eqb title ""
  then sys_exit "Error: empty title"
  else
    content_type ← or_str (arg_type args) (input "Enter content type(post/note): ");
    if negb (bool_decide (content_type ∈ content_types))
    then sys_exit ("Error: invalid content type, should be one of: "
                     +:+ str_list content_types)
    else
      now ← datetime_now;
      let year := or_int (arg_year args) (dt_year now) in
      let month := or_int (arg_month args) (dt_month now) in
      init_content title year month content_type content_types_to_dir.

(** The part of [main] before the call of [init_content]: the title, the
    content type, the year and the month it passes on. *)
Definition gather_inputs (argv : namespace) : M (string * string * Z * Z) :=
  args ← parse_args content_types argv;
  t ← or_str (arg_title args) (input "Enter working title: ");
  let title := strip t in
  if String.eqb title ""
  then sys_exit "Error: empty title"
  else
    content_type ← or_str (arg_type args) (input "Enter content type(post/note): ");
    if negb (bool_decide (content_type ∈ content_types))
    then sys_exit ("Error: invalid content type, should be one of: "
                     +:+ str_list content_types)
    else
      now ← datetime_now;
      mret (title, content_type,
            or_int (arg_year args) (dt_year now),
            or_int (arg_month args) (dt_month now)).

(** The paths and the report of [init_content], by name. *)
Definition base_dir_of (d : string) : string := "content/" +:+ d.

Definition dir_path_of (d title : string) (year month : Z) : string :=
  OS.path_join (base_dir_of d) (dir_name_of title year month).

Definition index_file_path_of (d title : string) (year month : Z) : string :=
  OS.path_join (dir_path_of d title year month) "index.md".

Definition report_of (d title : string) (year month : Z) (content_type : string)
    : list string :=
  [ ("New " +:+ content_type +:+ " created") +:+ NL;
    (TAB +:+ "title:" +:+ TAB +:+ title) +:+ NL;
    (TAB +:+ "dir:" +:+ TAB +:+ dir_name_of title year month) +:+ NL;
    (TAB +:+ "slug:" +:+ TAB +:+ slug_of title) +:+ NL;
    (TAB +:+ "path:" +:+ TAB +:+ index_file_path_of d title year month) +:+ NL ].

(** The world a successful [init_content] leaves. *)
Definition world_after (w : world) (lines : list string) (s : filesystem) : world :=
  {| stdin := stdin w; stdout := stdout w ++ lines;
     clock := clock w; ticks := S (ticks w); fs := s |}.

(** The world once the clock was read. *)
Definition clock_read (w : world) : world :=
  {| stdin := stdin w; stdout := stdout w;
     clock := clock w; ticks := S (ticks w); fs := fs w |}.

(** ** The specification's side *)

Module Spec.

(** "spaces replaced with underscores": character by character. *)
Definition subst_char (a b : ascii) (s : string) : string :=
  map_chars (fun c => if Ascii.eqb c a then b else c) s.

(** [lowercase(f"{year}_{month:02d}_{title with spaces→underscores}")] *)
Definition dir_name (title : string) (year month : Z) : string :=
  lower (str_int year +:+ "_" +:+ format_d 2 month +:+ "_" +:+ subst_char " " "_" title).

(** [lowercase(title with spaces→hyphens)] *)
Definition slug (title : string) : string := lower (subst_char " " "-" title).

(** The fixed-schema record of the data model. *)
Record frontmatter : Type := {
  fm_title : string;
  fm_date : string;
  fm_summary : string;
  fm_tags : list string;
  fm_type : string;
  fm_toc : bool;
  fm_readTime : bool;
  fm_autonumber : bool;
  fm_showTags : bool;
  fm_slug : string
}.

(** "delimited by [+++] markers, key = value pairs, strings quoted, lists
    in bracket notation, booleans unquoted" *)
Definition quoted (s : string) : string := DQ +:+ s +:+ DQ.

Definition boolean (b : bool) : string := if b then "true" else "false".

Definition bracketed (l : list string) : string :=
  "[" +:+ join ", " (map quoted l) +:+ "]".

Definition pair (key value : string) : string := key +:+ " = " +:+ value +:+ NL.

Definition render (fm : frontmatter) : string :=
  "+++" +:+ NL +:+
  pair "title" (quoted (fm_title fm)) +:+
  pair "date" (quoted (fm_date fm)) +:+
  pair "summary" (quoted (fm_summary fm)) +:+
  pair "tags" (bracketed (fm_tags fm)) +:+
  pair "type" (quoted (fm_type fm)) +:+
  pair "toc" (boolean (fm_toc fm)) +:+
  pair "readTime" (boolean (fm_readTime fm)) +:+
  pair "autonumber" (boolean (fm_autonumber fm)) +:+
  pair "showTags" (boolean (fm_showTags fm)) +:+
  pair "slug" (quoted (fm_slug fm)) +:+
  "+++" +:+ NL +:+ NL.

(** The title the tool is given: the value of [--title], or the line
    answered at the title prompt when the option is absent or empty. *)
Definition supplied_title (argv : namespace) (lines : list string) : option string :=
  match arg_title argv with
  | Some (String c s) => Some (String c s)
  | _ => head lines
  end.

(** The lines left once the title is known. *)
Definition lines_after_title (argv : namespace) (lines : list string) : list string :=
  match arg_title argv with
  | Some (String c s) => lines
  | _ => tail lines
  end.

(** The content type the tool is given: the value of [--type], or the
    line answered at the content-type prompt, which is asked once a title
    that is not blank is known. *)
Definition supplied_type (argv : namespace) (lines : list string) : option string :=
  match arg_type argv with
  | Some v => Some v
  | None =>
      match supplied_title argv lines with
      | Some t =>
          if String.eqb (strip t) "" then None
          else head (lines_after_title argv lines)
      | None => None
      end
  end.

(** The argument parser refuses a [--type] outside its choices. *)
Definition rejected_choice (argv : namespace) : option exn :=
match arg_type argv with
| Some v =>
    if bool_decide (v ∈ content_types) then None
    else Some (ArgparseError
                 ("argument --type: invalid choice: " +:+ repr v +:+
                  " (choose from " +:+ join ", " (map repr content_types) +:+ ")"))
| None => None
end.

(** What [main] makes of the command line, the lines of the standard
input and the clock, step by step: the inputs of [init_content], or the
exception that ends the run before it. *)
Definition gathered (argv : namespace) (lines : list string) (now : datetime)
  : exn + (string * string * Z * Z) :=
match rejected_choice argv with
| Some e => inl e
| None =>
    match supplied_title argv lines with
    | None => inl EOFError
    | Some t =>
        if String.eqb (strip t) "" then inl (SystemExit "Error: empty title")
        else
          match supplied_type argv lines with
          | None => inl EOFError
          | Some ty =>
              if bool_decide (ty ∈ content_types)
              then inr (strip t, ty,
                        or_int (arg_year argv) (dt_year now),
                        or_int (arg_month argv) (dt_month now))
              else inl (SystemExit
                          ("Error: invalid content type, should be one of: "
                             +:+ str_list content_types))
          end
    end
end.

(** The message lists the valid types. *)
Definition lists_valid_types (msg : string) : Prop :=
  substring_of (join ", " (map repr content_types)) msg = true.

(** A quoted string: an opening double quote, then characters up to the
    closing double quote, where a backslash escapes the character after
    it. [unescape] is the table of the escapes; [read_quoted] gives the
    value read and the text left after the closing quote. *)
Section Quoted.
Variable unescape : ascii -> option ascii.

Fixpoint read_body (s : string) : option (string * string) :=
  match s with
  | EmptyString => None
  | String c s' =>
      if Ascii.eqb c dquote then Some (EmptyString, s')
      else if Ascii.eqb c backslash then
        match s' with
        | EmptyString => None
        | String e s'' =>
            match unescape e, read_body s'' with
            | Some d, Some (v, rest) => Some (String d v, rest)
            | _, _ => None
            end
        end
      else
        match read_body s' with
        | Some (v, rest) => Some (String c v, rest)
        | None => None
        end
  end.

Definition read_quoted (s : string) : option (string * string) :=
  match s with
  | String c s' => if Ascii.eqb c dquote then read_body s' else None
  | EmptyString => None
  end.
End Quoted.

(** The escapes of one character of a TOML basic string. *)
Definition toml_unescape (e : ascii) : option ascii :=
  if Ascii.eqb e dquote then Some dquote
  else if Ascii.eqb e backslash then Some backslash
  else if Ascii.eqb e "n" then Some newline
  else if Ascii.eqb e "t" then Some tab
  else if Ascii.eqb e "r" then Some "013"%char
  else if Ascii.eqb e "b" then Some "008"%char
  else if Ascii.eqb e "f" then Some "012"%char
  else None.

(** The month given with [--month] is the one in the directory name of
    every run of the tool that succeeds with it. *)
Definition month_embedded (m : Z) : Prop :=
  ∀ (t ct : string) (y : Z) (w w' : world),
    strip t ≠ EmptyString → y ≠ 0 →
    main {| arg_title := Some t; arg_type := Some ct;
            arg_year := Some y; arg_month := Some m |} w = (inr tt, w') →
    (TAB +:+ "dir:" +:+ TAB +:+ dir_name (strip t) y m +:+ NL) ∈ stdout w'.

(** Every month outside 1..12 is embedded. *)
Definition months_outside_range_embedded : Prop :=
∀ m : Z, m < 1 ∨ 12 < m → month_embedded m.

(** The frontmatter of a new entry. *)
Definition new_entry (title date content_type slug : string) : frontmatter :=
{| fm_title := title; fm_date := date; fm_summary := EmptyString; fm_tags := [];
   fm_type := content_type; fm_toc := false; fm_readTime := true;
   fm_autonumber := false; fm_showTags := true; fm_slug := slug |}.

End Spec.

(** ** A small site to run the tool on *)

Module Sample.

Definition site : filesystem :=
  {| dirs := {[ ["content"]; ["posts"; "content"]; ["notes"; "content"] ]}%string;
     files := ∅ |}.

(** A site without its [content/notes]. *)
Definition posts_only : filesystem :=
  {| dirs := {[ ["content"]; ["posts"; "content"] ]}%string; files := ∅ |}.

Definition fourth_of_november (n : nat) : datetime :=
  {| dt_year := 2026; dt_month := 11; dt_day := 4 |}.

Definition start (lines : list string) (s : filesystem) : world :=
  {| stdin := lines; stdout := []; clock := fourth_of_november; ticks := 0; fs := s |}.

Definition flags (title type : string) (year month : Z) : namespace :=
  {| arg_title := Some title; arg_type := Some type;
     arg_year := Some year; arg_month := Some month |}.

(** The site once "My Post" of March 2024 was created. *)
Definition my_post_created : world :=
(init_content "My Post" 2024 3 "post" content_types_to_dir (start [] site)).2.

(** A later day on the site with "My Post". *)
Definition christmas (n : nat) : datetime :=
{| dt_year := 2026; dt_month := 12; dt_day := 25 |}.

Definition later : world :=
{| stdin := []; stdout := []; clock := christmas; ticks := 0; fs := fs my_post_created |}.

(** A title with two double quotes. *)
Definition quoting_title : string := "Say " +:+ DQ +:+ "hi" +:+ DQ.

Definition quoting_flags : namespace := flags quoting_title "post" 2024 3.

(** A blank title, and a type that is asked for and unknown. *)
Definition blank_flags : namespace := flags "   " "post" 2024 3.

Definition no_type : namespace :=
{| arg_title := Some "My Post"%string; arg_type := None;
   arg_year := Some 2024; arg_month := Some 3 |}.

End Sample.


(** ** Reading back and replacing the input *)

(** [int(s)] on decimal digits with an optional minus sign in front, the
    strings [format_d] writes; [None] is its [ValueError], as on [""],
    on ["-"] and on any other character. *)
Definition int_of_str (s : string) : option Z :=
  match s with
  | EmptyString => None
  | String c s' =>
      if Ascii.eqb c "-"
      then (fun d => - Z.of_N (N.of_uint d)) <$> NilZero.uint_of_string s'
      else (fun d => Z.of_N (N.of_uint d)) <$> NilEmpty.uint_of_string s
  end.

(** The world with other lines on its standard input. *)
Definition with_stdin (w : world) (lines : list string) : world :=
  {| stdin := lines; stdout := stdout w; clock := clock w; ticks := ticks w; fs := fs w |}.

(** ** More runs on the sample site *)

Module Trial.

(** "My Post" with white space around it. *)
Definition padded : string := "  My Post  ".

(** The command line without a title. *)
Definition no_title : namespace :=
{| arg_title := None; arg_type := Some "post"%string;
   arg_year := Some 2024; arg_month := Some 3 |}.

(** The run of "My Post" for March 2024, from the command line. *)
Definition my_post_flags : namespace := Sample.flags "My Post" "post" 2024 3.

Definition my_post_run : (exn + unit) * world :=
main my_post_flags (Sample.start [] Sample.site).

(** The same day on the site with "My Post". *)
Definition same_day : world := Sample.start [] (fs Sample.my_post_created).

End Trial.

(** * Properties *)

(** ** Strings *)

Section StringFacts.

Lemma map_chars_app (f : ascii -> ascii) (a b : string) :
  map_chars f (a +:+ b) = map_chars f a +:+ map_chars f b.
Proof. induction a as [|c a IH]; simpl; [reflexivity | now rewrite IH]. Qed.

Lemma lower_app (a b : string) : lower (a +:+ b) = lower a +:+ lower b.
Proof. apply map_chars_app. Qed.

Lemma map_chars_length (f : ascii -> ascii) (s : string) :
  String.length (map_chars f s) = String.length s.
Proof. induction s as [|c s IH]; simpl; [reflexivity | now rewrite IH]. Qed.

Lemma map_chars_nonempty (f : ascii -> ascii) (s : string) :
  s ≠ EmptyString → map_chars f s ≠ EmptyString.
Proof. destruct s; simpl; [tauto | discriminate]. Qed.

Lemma map_chars_fixed (P : ascii -> bool) (f : ascii -> ascii) (s : string) :
  (∀ c, P c = true → f c = c) → all_chars P s = true → map_chars f s = s.
Proof.
  intros Hf. induction s as [|c s IH]; simpl; [reflexivity|].
  intros [Hc Hs]%andb_prop. now rewrite (Hf c Hc), (IH Hs).
Qed.

Lemma all_chars_app (P : ascii -> bool) (a b : string) :
  all_chars P (a +:+ b) = all_chars P a && all_chars P b.
Proof.
  induction a as [|c a IH]; simpl; [reflexivity|].
  now rewrite IH, andb_assoc.
Qed.

Lemma lower_char_decimal (c : ascii) : is_decimal_char c = true → lower_char c = c.
Proof.
  destruct c as [[|] [|] [|] [|] [|] [|] [|] [|]]; vm_compute; congruence.
Qed.

Lemma all_chars_uint (d : Decimal.uint) :
  all_chars is_decimal_char (NilEmpty.string_of_uint d) = true.
Proof. induction d; simpl; auto. Qed.

Lemma all_chars_digits (n : N) : all_chars is_decimal_char (digits n) = true.
Proof.
  unfold digits, NilZero.string_of_uint.
  destruct (N.to_uint n) eqn:E; try reflexivity;
    rewrite <- E at 1; apply all_chars_uint.
Qed.

Lemma all_chars_repeat_zero (n : nat) :
  all_chars is_decimal_char (repeat_char "0" n) = true.
Proof. induction n; simpl; auto. Qed.

Lemma all_chars_format_d (width : nat) (z : Z) :
  all_chars is_decimal_char (format_d width z) = true.
Proof.
  unfold format_d. rewrite !all_chars_app, all_chars_repeat_zero, all_chars_digits.
  now destruct (z <? 0).
Qed.

(** Lower-casing leaves a formatted integer as it is. *)
Lemma lower_format_d (width : nat) (z : Z) : lower (format_d width z) = format_d width z.
Proof.
  apply (map_chars_fixed is_decimal_char); [apply lower_char_decimal|].
  apply all_chars_format_d.
Qed.

Lemma prefix_one (a c : ascii) (s : string) :
  String.prefix (String a EmptyString) (String c s) = Ascii.eqb c a.
Proof.
  simpl. destruct (Ascii.eqb_spec c a) as [->|Hne].
  - destruct (ascii_dec a a); [now destruct s | congruence].
  - destruct (ascii_dec a c); [congruence | reflexivity].
Qed.

(** [str.replace] of one character by one character is a substitution
    character by character. *)
Lemma replace_one_char (a b : ascii) (s : string) :
  replace (String a EmptyString) (String b EmptyString) s = Spec.subst_char a b s.
Proof.
  unfold replace, Spec.subst_char.
  induction s as [|c s IH]; [reflexivity|].
  cbn [replace_from map_chars]. rewrite prefix_one.
  destruct (Ascii.eqb c a); cbn; now rewrite IH.
Qed.

Lemma dir_name_of_spec (title : string) (year month : Z) :
  dir_name_of title year month = Spec.dir_name title year month.
Proof.
  unfold dir_name_of, Spec.dir_name.
  now rewrite (replace_one_char " " "_").
Qed.

Lemma slug_of_spec (title : string) : slug_of title = Spec.slug title.
Proof. unfold slug_of, Spec.slug. now rewrite (replace_one_char " " "-"). Qed.

(** The name part by part: only the title is touched by the lower-casing. *)
Lemma dir_name_parts (title : string) (year month : Z) :
  Spec.dir_name title year month =
  str_int year +:+ "_" +:+ format_d 2 month +:+ "_"
    +:+ lower (Spec.subst_char " " "_" title).
Proof.
  unfold Spec.dir_name, str_int.
  now rewrite !lower_app, !lower_format_d.
Qed.

Lemma slug_nonempty (title : string) : title ≠ EmptyString → Spec.slug title ≠ EmptyString.
Proof. intros H. unfold Spec.slug, lower, Spec.subst_char. now do 2 apply map_chars_nonempty. Qed.

Lemma app_nonempty_r (a b : string) : b ≠ EmptyString → a +:+ b ≠ EmptyString.
Proof. destruct a; simpl; [tauto | discriminate]. Qed.

Lemma strftime_nonempty (d : datetime) : strftime_Ymd d ≠ EmptyString.
Proof. unfold strftime_Ymd. apply app_nonempty_r. discriminate. Qed.

End StringFacts.

(** ** The file system *)

Section FileSystemFacts.
Import OS.

Lemma isdir_exists (p : rpath) (s : filesystem) :
  isdir_at p s = true → exists_at p s = true.
Proof. unfold exists_at. now intros ->. Qed.

Lemma mkdir_at_ok (p : rpath) (s s' : filesystem) :
  mkdir_at p s = inr s' →
  s' = {| dirs := {[ p ]} ∪ dirs s; files := files s |} ∧ exists_at p s = false.
Proof.
  unfold mkdir_at. destruct p as [|c parent]; [discriminate|].
  destruct (exists_at (c :: parent) s) eqn:E; [discriminate|].
  destruct parent as [|c' parent'].
  - intros [= <-]. auto.
  - destruct (isdir_at _ s); [intros [= <-]; auto|].
    destruct (isfile_at _ s); discriminate.
Qed.

Lemma mkdir_at_error (p : rpath) (s : filesystem) (e : exn) :
  mkdir_at p s = inl e → is_OSError e = true.
Proof.
  unfold mkdir_at. destruct p as [|c parent]; [now intros [= <-]|].
  destruct (exists_at _ s); [now intros [= <-]|].
  destruct parent as [|c' parent']; [discriminate|].
  destruct (isdir_at _ s); [discriminate|].
  destruct (isfile_at _ s); now intros [= <-].
Qed.

Lemma mkdir_at_exists_error (p : rpath) (s : filesystem) (q : rpath) :
  mkdir_at p s = inl (FileExistsError q) → exists_at p s = true.
Proof.
  unfold mkdir_at. destruct p as [|c parent]; [discriminate|].
  destruct (exists_at _ s); [reflexivity|].
  destruct parent as [|c' parent']; [discriminate|].
  destruct (isdir_at _ s); [discriminate|].
  destruct (isfile_at _ s); discriminate.
Qed.

(** One unfolding of [makedirs_at], with the state [s1] after the
    ancestors. *)
Lemma makedirs_at_step (c : string) (head : rpath) (s s' : filesystem) :
  makedirs_at (c :: head) s = inr s' →
  ∃ s1,
    (head = [] ∧ s1 = s
     ∨ exists_at head s = true ∧ s1 = s
     ∨ exists_at head s = false ∧ makedirs_at head s = inr s1
     ∨ exists_at head s = false ∧ s1 = s
       ∧ ∃ q, makedirs_at head s = inl (FileExistsError q))
    ∧ (mkdir_at (c :: head) s1 = inr s'
       ∨ s' = s1 ∧ isdir_at (c :: head) s1 = true).
Proof.
  cbn [makedirs_at]. intros H.
  assert (Hlast : ∀ s1, match mkdir_at (c :: head) s1 with
                        | inl e => if is_OSError e && isdir_at (c :: head) s1
                                   then inr s1 else inl e
                        | inr s2 => inr s2
                        end = inr s' →
                        mkdir_at (c :: head) s1 = inr s'
                        ∨ s' = s1 ∧ isdir_at (c :: head) s1 = true).
  { intros s1 H1. destruct (mkdir_at (c :: head) s1) as [e|s2]; [|now left].
    destruct (is_OSError e); [|discriminate].
    destruct (isdir_at (c :: head) s1) eqn:E; [|discriminate].
    injection H1 as <-. now right. }
  destruct head as [|c' head'].
  - exists s. split; [now left | now apply Hlast].
  - destruct (exists_at (c' :: head') s) eqn:E.
    + exists s. split; [right; now left | now apply Hlast].
    + destruct (makedirs_at (c' :: head') s) as [e|s1] eqn:Em.
      * destruct e; try discriminate.
        exists s. split; [|now apply Hlast].
        right; right; right. eauto.
      * exists s1. split; [|now apply Hlast].
        right; right; left. auto.
Qed.

Lemma makedirs_at_isdir (p : rpath) (s s' : filesystem) :
  makedirs_at p s = inr s' → isdir_at p s' = true.
Proof.
  destruct p as [|c head]; [discriminate|].
  intros (s1 & _ & [Hmk | [-> Hd]])%makedirs_at_step; [|assumption].
  apply mkdir_at_ok in Hmk as [-> _].
  unfold isdir_at. apply bool_decide_eq_true. cbn. set_solver.
Qed.

Lemma makedirs_at_grows (p : rpath) (s s' : filesystem) :
  makedirs_at p s = inr s' → files s' = files s ∧ dirs s ⊆ dirs s'.
Proof.
  revert s s'. induction p as [|c head IH]; intros s s'; [discriminate|].
  intros (s1 & Habove & Hlast)%makedirs_at_step.
  assert (files s1 = files s ∧ dirs s ⊆ dirs s1) as [Hf Hd].
  { destruct Habove as [[_ ->] | [[_ ->] | [[_ Hm] | (_ & -> & _)]]]; auto. }
  destruct Hlast as [Hmk | [-> _]]; [|auto].
  apply mkdir_at_ok in Hmk as [-> _]. cbn. split; [assumption|].
  etrans; [exact Hd | apply union_subseteq_r].
Qed.

Lemma keeps_files_same (s s' : filesystem) : files s' = files s → keeps_files s s'.
Proof. intros E k. now rewrite E. Qed.

Lemma keeps_files_insert (s : filesystem) (k : rpath) (text : string) (d : gset rpath) :
  keeps_files s {| dirs := d; files := <[ k := text ]> (files s) |}.
Proof.
  intros k' H. cbn. destruct (decide (k = k')) as [->|Hne].
  - rewrite lookup_insert_eq. eauto.
  - now rewrite lookup_insert_ne.
Qed.

Lemma exists_at_grows (p : rpath) (s s' : filesystem) :
  dirs s ⊆ dirs s' → keeps_files s s' →
  exists_at p s = true → exists_at p s' = true.
Proof.
  unfold exists_at, isdir_at, isfile_at. intros Hd Hf.
  intros [H|H]%orb_prop; apply orb_true_intro.
  - left. apply bool_decide_eq_true in H. apply bool_decide_eq_true. auto.
  - right. apply bool_decide_eq_true in H. apply bool_decide_eq_true. auto.
Qed.

Lemma path_exists_grows (p : string) (s s' : filesystem) :
  dirs s ⊆ dirs s' → keeps_files s s' →
  path_exists p s = true → path_exists p s' = true.
Proof.
  unfold path_exists. intros Hd Hf [Hn H]%andb_prop.
  rewrite Hn. cbn. eapply exists_at_grows; eauto.
Qed.

Lemma makedirs_at_exists_error (p : rpath) (s : filesystem) (q : rpath) :
  makedirs_at p s = inl (FileExistsError q) → exists_at p s = true.
Proof.
  destruct p as [|c head]; [discriminate|].
  cbn [makedirs_at].
  set (above := match head with [] => _ | _ :: _ => _ end).
  assert (Habove : (∃ e, above = inl e ∧ ∀ q', e ≠ FileExistsError q')
                   ∨ (∃ s1, above = inr s1 ∧ files s1 = files s ∧ dirs s ⊆ dirs s1)).
  { subst above. destruct head as [|c' head']; [right; eauto|].
    destruct (exists_at (c' :: head') s); [right; eauto|].
    destruct (makedirs_at (c' :: head') s) as [e|s1] eqn:Em.
    - destruct e; try (left; eexists; split; [reflexivity | congruence]).
      right; eauto.
    - right. exists s1. split; [reflexivity|]. now apply makedirs_at_grows in Em. }
  destruct Habove as [(e & -> & Hne) | (s1 & -> & Hf & Hd)].
  - intros [= ->]. now destruct (Hne q).
  - destruct (mkdir_at (c :: head) s1) as [e|s2] eqn:Emk; [|discriminate].
    destruct (is_OSError e && isdir_at (c :: head) s1) eqn:Eok; [discriminate|].
    intros [= ->]. apply mkdir_at_exists_error in Emk.
    cbn in Eok. unfold exists_at in *. rewrite Eok in Emk. cbn in Emk.
    unfold isfile_at in *. rewrite Hf in Emk. rewrite Emk. apply orb_true_r.
Qed.

(** After [makedirs_at], what is above the directory is there. *)
Lemma makedirs_at_head (c : string) (head : rpath) (s s' : filesystem) :
  makedirs_at (c :: head) s = inr s' → head = [] ∨ exists_at head s' = true.
Proof.
  intros (s1 & Habove & Hlast)%makedirs_at_step.
  destruct (decide (head = [])) as [|Hne]; [now left | right].
  assert (exists_at head s1 = true) as H1.
  { destruct Habove as [[? _] | [[H ->] | [[_ Hm] | (Hno & _ & q & Hq)]]].
    - contradiction.
    - exact H.
    - apply isdir_exists. eapply makedirs_at_isdir; eauto.
    - apply makedirs_at_exists_error in Hq. congruence. }
  destruct Hlast as [Hmk | [-> _]]; [|exact H1].
  apply mkdir_at_ok in Hmk as [-> _].
  eapply exists_at_grows; [| |exact H1];
    [apply union_subseteq_r | now apply keeps_files_same].
Qed.

(** A second [makedirs_at] on a directory that is there, below something
    that is there, changes nothing. *)
Lemma makedirs_at_again (c : string) (head : rpath) (s : filesystem) :
  isdir_at (c :: head) s = true →
  head = [] ∨ exists_at head s = true →
  makedirs_at (c :: head) s = inr s.
Proof.
  intros Hd Hhead. cbn [makedirs_at].
  assert (mkdir_at (c :: head) s = inl (FileExistsError (c :: head))) as Hmk.
  { unfold mkdir_at. now rewrite (isdir_exists _ _ Hd). }
  destruct head as [|c' head'].
  - rewrite Hmk. cbn. now rewrite Hd.
  - destruct Hhead as [Hnil|Hex]; [discriminate|].
    rewrite Hex, Hmk. cbn. now rewrite Hd.
Qed.

Lemma write_text_ok (p text : string) (s s' : filesystem) :
  write_text p text s = inr s' →
  s' = {| dirs := dirs s; files := <[ rpath_of p := text ]> (files s) |}.
Proof.
  unfold write_text. destruct (has_nul p); [discriminate|].
  destruct (isdir_at (rpath_of p) s); [discriminate|].
  destruct (rpath_of p) as [|c [|c' parent]]; [discriminate| |].
  - now intros [= <-].
  - destruct (isdir_at _ s); [now intros [= <-]|].
    destruct (isfile_at _ s); discriminate.
Qed.

(** Whether [write_text] succeeds depends on the directories alone. *)
Lemma write_text_again (p text text' : string) (s s' s2 : filesystem) :
  write_text p text s = inr s' →
  dirs s2 = dirs s →
  write_text p text' s2
  = inr {| dirs := dirs s2; files := <[ rpath_of p := text' ]> (files s2) |}.
Proof.
  unfold write_text, isdir_at. intros H Hd. rewrite Hd.
  destruct (has_nul p); [discriminate|].
  destruct (bool_decide (rpath_of p ∈ dirs s)); [discriminate|].
  destruct (rpath_of p) as [|c [|c' parent]]; [discriminate|reflexivity|].
  destruct (bool_decide (_ ∈ dirs s)); [reflexivity|].
  destruct (isfile_at _ s); discriminate.
Qed.

Lemma makedirs_ok (p : string) (s s' : filesystem) :
  makedirs p s = inr s' →
  makedirs_at (rpath_of p) s = inr s'
  ∧ isdir_at (rpath_of p) s' = true ∧ files s' = files s ∧ dirs s ⊆ dirs s'.
Proof.
  unfold makedirs. destruct (has_nul p); [discriminate|].
  intros H. split; [exact H|]. split; [eapply makedirs_at_isdir; eauto|].
  eapply makedirs_at_grows; eauto.
Qed.

(** Creating the directory a second time succeeds and changes nothing,
    also after a file was written. *)
Lemma makedirs_again (p : string) (s s1 s2 : filesystem) :
  makedirs p s = inr s1 →
  dirs s2 = dirs s1 → keeps_files s1 s2 →
  makedirs p s2 = inr s2.
Proof.
  unfold makedirs. destruct (has_nul p); [discriminate|]. intros H Hd Hf.
  destruct (rpath_of p) as [|c head]; [discriminate|].
  apply makedirs_at_again.
  - apply makedirs_at_isdir in H. unfold isdir_at in *. now rewrite Hd.
  - apply makedirs_at_head in H as [->|H]; [now left | right].
    eapply exists_at_grows; [| |exact H]; [now rewrite Hd | exact Hf].
Qed.

Lemma OS_write_text_lookup (p text : string) (s s' : filesystem) :
  write_text p text s = inr s' → files s' !! rpath_of p = Some text.
Proof. intros ->%write_text_ok. cbn. apply lookup_insert_eq. Qed.

End FileSystemFacts.

(** ** [init_content] *)

Section InitContentFacts.

Ltac run_monad :=
  unfold init_content, subscript, os_path_exists, os_makedirs, open_w_write,
    lift_fs, datetime_now, print, write_stdout, sys_exit, raise,
    mbind, mret, M_bind, M_ret; cbn [fs stdout stdin clock ticks with_fs].

(** The only way [init_content] succeeds. *)
Lemma init_content_inv (title : string) (year month : Z) (content_type : string)
    (ctd : list (string * string)) (w w' : world) :
  init_content title year month content_type ctd w = (inr tt, w') →
  ∃ d s1 s2,
    dict_get ctd content_type = Some d
    ∧ OS.path_exists (base_dir_of d) (fs w) = true
    ∧ OS.makedirs (dir_path_of d title year month) (fs w) = inr s1
    ∧ OS.write_text (index_file_path_of d title year month)
        (frontmatter_of title (strftime_Ymd (clock w (ticks w))) content_type
           (slug_of title)) s1 = inr s2
    ∧ w' = world_after w (report_of d title year month content_type) s2.
Proof.
  run_monad.
  destruct (dict_get ctd content_type) as [d|] eqn:Ed; [|discriminate].
  fold (base_dir_of d).
  destruct (OS.path_exists (base_dir_of d) (fs w)) eqn:Ex; [|discriminate].
  cbn [negb]. fold (dir_path_of d title year month).
  fold (index_file_path_of d title year month).
  destruct (OS.makedirs _ (fs w)) as [e|s1] eqn:Em; [discriminate|].
  cbn [fs stdout stdin clock ticks with_fs].
  destruct (OS.write_text _ _ s1) as [e|s2] eqn:Ew; [discriminate|].
  cbn [fs stdout stdin clock ticks with_fs].
  intros [= <-]. exists d, s1, s2. repeat split; try assumption.
  unfold world_after, report_of. f_equal.
  now rewrite <- !app_assoc.
Qed.

(** [init_content] succeeds whenever the base directory is there and the
    two operations on the file system succeed. *)
Lemma init_content_run (title : string) (year month : Z) (content_type d : string)
    (ctd : list (string * string)) (w : world) (s1 s2 : filesystem) :
  dict_get ctd content_type = Some d →
  OS.path_exists (base_dir_of d) (fs w) = true →
  OS.makedirs (dir_path_of d title year month) (fs w) = inr s1 →
  OS.write_text (index_file_path_of d title year month)
    (frontmatter_of title (strftime_Ymd (clock w (ticks w))) content_type
       (slug_of title)) s1 = inr s2 →
  init_content title year month content_type ctd w
  = (inr tt, world_after w (report_of d title year month content_type) s2).
Proof.
  intros Ed Ex Em Ew. run_monad. rewrite Ed.
  fold (base_dir_of d). rewrite Ex. cbn [negb].
  fold (dir_path_of d title year month).
  fold (index_file_path_of d title year month).
  rewrite Em. cbn [fs stdout stdin clock ticks with_fs]. rewrite Ew.
  cbn [fs stdout stdin clock ticks with_fs].
  unfold world_after, report_of. do 2 f_equal.
  now rewrite <- !app_assoc.
Qed.

(** Without its base directory [init_content] stops before it touches
    the file system. *)
Lemma init_content_missing (title : string) (year month : Z) (content_type d : string)
    (ctd : list (string * string)) (w : world) :
  dict_get ctd content_type = Some d →
  OS.path_exists (base_dir_of d) (fs w) = false →
  init_content title year month content_type ctd w
  = (inl (SystemExit ("Error: directory '" +:+ base_dir_of d +:+ "' does not exist")), w).
Proof.
  intros Ed Ex. run_monad. rewrite Ed. fold (base_dir_of d). now rewrite Ex.
Qed.

Lemma dict_get_content_type (content_type : string) :
  content_type ∈ content_types →
  ∃ d, dict_get content_types_to_dir content_type = Some d.
Proof.
  unfold content_types, content_types_to_dir. cbn.
  intros H. repeat (apply elem_of_cons in H as [->|H]); [eauto | eauto |].
  now apply elem_of_nil in H.
Qed.

End InitContentFacts.

(** ** [main] *)

Section MainFacts.

#[local] Arguments strip : simpl never.

Lemma main_gather (argv : namespace) (w : world) :
  main argv w =
  match gather_inputs argv w with
  | (inl e, w') => (inl e, w')
  | (inr (title, content_type, year, month), w') =>
      init_content title year month content_type content_types_to_dir w'
  end.
Proof.
  unfold main, gather_inputs, mbind, M_bind, mret, M_ret, sys_exit, raise.
  destruct (parse_args content_types argv w) as [[e|args] w1]; [reflexivity|].
  destruct (or_str (arg_title args) _ w1) as [[e|t] w2]; [reflexivity|].
  destruct (String.eqb (strip t) ""); [reflexivity|].
  destruct (or_str (arg_type args) _ w2) as [[e|ct] w3]; [reflexivity|].
  destruct (negb _); [reflexivity|].
  now destruct (datetime_now w3) as [[e|now] w4].
Qed.

(** [gather_inputs] computes [Spec.gathered] and leaves the file system
    and the clock as they are; when it returns, the clock was read once. *)
Lemma gather_inputs_gathered (argv : namespace) (w : world) :
  let r := gather_inputs argv w in
  r.1 = Spec.gathered argv (stdin w) (clock w (ticks w))
  ∧ fs r.2 = fs w ∧ clock r.2 = clock w
  ∧ (∀ x, r.1 = inr x → ticks r.2 = S (ticks w)).
Proof.
  unfold gather_inputs, Spec.gathered, Spec.rejected_choice, Spec.supplied_type,
    Spec.supplied_title, Spec.lines_after_title, parse_args, or_str, input, read_line, write_stdout,
    datetime_now, sys_exit, raise, mbind, mret, M_bind, M_ret.
  destruct argv as [ti ty yr mo]. cbn [arg_title arg_type arg_year arg_month].
  destruct w as [lines out clk tk s]. cbn [stdin stdout clock ticks fs].
  remember content_types as known eqn:Hknown.
  remember (str_list known) as listed eqn:Hlisted.
  destruct ty as [v|].
  - destruct (bool_decide (v ∈ known)) eqn:Ev; cbn; [|auto with congruence].
    assert (∃ c v', v = String c v') as (c & v' & ->).
    { apply bool_decide_eq_true in Ev. destruct v; [|eauto].
      exfalso. revert Ev. rewrite Hknown. unfold content_types. cbn.
      intros H. repeat (apply elem_of_cons in H as [?|H]; [discriminate|]).
      now apply elem_of_nil in H. }
    destruct ti as [[|c0 t0]|]; destruct lines as [|l1 rest]; cbn;
      repeat match goal with
             | |- context [String.eqb ?a ?b] => destruct (String.eqb a b); cbn
             end;
      rewrite ?Ev; cbn; auto with congruence.
  - destruct ti as [[|c0 t0]|]; destruct lines as [|l1 [|l2 rest]]; cbn;
      repeat match goal with
             | |- context [String.eqb ?a ?b] => destruct (String.eqb a b); cbn
             end;
      repeat match goal with
             | |- context [bool_decide ?P] => destruct (bool_decide P); cbn
             end;
      auto with congruence.
Qed.

(** A run of [main] is decided by [Spec.gathered]: it ends there, with
    the file system as it was, or goes on with [init_content]. *)
Lemma main_cases (argv : namespace) (w : world) :
  match Spec.gathered argv (stdin w) (clock w (ticks w)) with
  | inl e => ∃ w', main argv w = (inl e, w') ∧ fs w' = fs w
  | inr (title, content_type, year, month) =>
      ∃ wm, main argv w
            = init_content title year month content_type content_types_to_dir wm
        ∧ fs wm = fs w ∧ clock wm = clock w ∧ ticks wm = S (ticks w)
  end.
Proof.
  rewrite main_gather.
  destruct (gather_inputs_gathered argv w) as (Hr & Hfs & Hclock & Hticks).
  destruct (gather_inputs argv w) as [[e|[[[title ct] y] m]] wm];
    cbn in Hr, Hfs, Hclock, Hticks; rewrite <- Hr; eauto 6.
Qed.

(** With all four options given, nothing is read and nothing is written
    before [init_content]. *)
Lemma gather_inputs_flags (t ct : string) (y m : Z) (w : world) :
  strip t ≠ EmptyString → ct ∈ content_types →
  gather_inputs {| arg_title := Some t; arg_type := Some ct;
                   arg_year := Some y; arg_month := Some m |} w
  = (inr (strip t, ct, or_int (Some y) (dt_year (clock w (ticks w))),
          or_int (Some m) (dt_month (clock w (ticks w)))), clock_read w).
Proof.
  intros Ht Hct.
  assert (ct ≠ EmptyString) as Hne.
  { intros ->. revert Hct. unfold content_types. cbn. intros H.
    repeat (apply elem_of_cons in H as [?|H]; [discriminate|]).
    now apply elem_of_nil in H. }
  assert (t ≠ EmptyString) as Hne' by (intros ->; now apply Ht).
  destruct t as [|c0 t0]; [contradiction|].
  destruct ct as [|c1 ct1]; [contradiction|].
  apply String.eqb_neq in Ht. apply (bool_decide_eq_true_2 _) in Hct.
  unfold gather_inputs, parse_args, or_str, datetime_now, sys_exit, raise,
    mbind, mret, M_bind, M_ret.
  remember content_types as known eqn:Hknown.
  cbn. rewrite Hct. cbn. rewrite Ht, Hct. reflexivity.
Qed.

Lemma prefix_app (sub b : string) : String.prefix sub (sub +:+ b) = true.
Proof.
  induction sub as [|c sub IH]; [now destruct b|].
  change (String.prefix (String c sub) (String c (sub +:+ b)) = true).
  cbn. destruct (ascii_dec c c); [exact IH | congruence].
Qed.

Lemma substring_of_app (sub a b : string) : substring_of sub (a +:+ sub +:+ b) = true.
Proof.
  induction a as [|c a IH].
  - change (substring_of sub (sub +:+ b) = true).
    pose proof (prefix_app sub b) as H.
    destruct (sub +:+ b); cbn [substring_of]; now rewrite H.
  - change (substring_of sub (String c (a +:+ sub +:+ b)) = true).
    cbn. rewrite IH. apply orb_true_r.
Qed.

End MainFacts.

(** ** The frontmatter *)

Section FrontmatterFacts.

Lemma str_app_assoc (a b c : string) : (a +:+ b) +:+ c = a +:+ b +:+ c.
Proof.
  induction a as [|x a IH]; [reflexivity|].
  change (String x ((a +:+ b) +:+ c) = String x (a +:+ b +:+ c)).
  now rewrite IH.
Qed.

Lemma str_app_length (a b : string) :
  String.length (a +:+ b) = (String.length a + String.length b)%nat.
Proof.
  induction a as [|x a IH]; [reflexivity|].
  change (S (String.length (a +:+ b)) = S (String.length a + String.length b)).
  now rewrite IH.
Qed.

(** The template of [init_content] is the rendering of the record. *)
Lemma frontmatter_of_render (title date content_type slug : string) :
  frontmatter_of title date content_type slug
  = Spec.render (Spec.new_entry title date content_type slug).
Proof.
  unfold frontmatter_of, Spec.render, Spec.new_entry, Spec.pair, Spec.quoted,
    Spec.bracketed, Spec.boolean.
  cbn [Spec.fm_title Spec.fm_date Spec.fm_summary Spec.fm_tags Spec.fm_type
       Spec.fm_toc Spec.fm_readTime Spec.fm_autonumber Spec.fm_showTags
       Spec.fm_slug map join].
  rewrite !str_app_assoc. reflexivity.
Qed.

(** What a successful [init_content] leaves in [index.md]. *)
Lemma init_content_written (title : string) (year month : Z) (content_type : string)
    (w w' : world) :
  init_content title year month content_type content_types_to_dir w = (inr tt, w') →
  ∃ d, dict_get content_types_to_dir content_type = Some d
    ∧ files (fs w') !! OS.rpath_of (index_file_path_of d title year month)
      = Some (frontmatter_of title (strftime_Ymd (clock w (ticks w))) content_type
                (slug_of title))
    ∧ stdout w' = stdout w ++ report_of d title year month content_type.
Proof.
  intros (d & s1 & s2 & Ed & _ & _ & Hw & ->)%init_content_inv.
  exists d. split; [assumption|]. split; [|reflexivity].
  apply OS_write_text_lookup in Hw. exact Hw.
Qed.

End FrontmatterFacts.

(** ** The entry: directory name, slug and frontmatter *)

Section Entry.
Import OS.

(** C1. The directory name [init_content] builds from a title, a year and
    a month is [lowercase(f"{year}_{month:02d}_{title with spaces replaced
    by underscores}")]; a call that succeeds has created the directory of
    that name below the base directory of the content type and reports
    it. *)
Theorem C1_directory_name (title : string) (year month : Z) :
  dir_name_of title year month = Spec.dir_name title year month
  ∧ ∀ (content_type : string) (w w' : world),
      init_content title year month content_type content_types_to_dir w = (inr tt, w') →
      ∃ d, dict_get content_types_to_dir content_type = Some d
        ∧ isdir_at (rpath_of (path_join ("content/" +:+ d)
                                (Spec.dir_name title year month))) (fs w') = true
        ∧ ((TAB +:+ "dir:" +:+ TAB +:+ Spec.dir_name title year month) +:+ NL)
            ∈ stdout w'.
Proof.
  split; [apply dir_name_of_spec|].
  intros content_type w w' (d & s1 & s2 & Ed & _ & Hm & Hw & ->)%init_content_inv.
  exists d. split; [assumption|]. rewrite <- dir_name_of_spec.
  apply makedirs_ok in Hm as (_ & Hd & _ & _).
  apply write_text_ok in Hw as ->. split.
  - exact Hd.
  - cbn. apply elem_of_app. right. unfold report_of.
    do 2 apply list_elem_of_further. apply list_elem_of_here.
Qed.

(** The example of the specification: "My Post", 2024, 3. *)
Example dir_name_my_post : dir_name_of "My Post" 2024 3 = "2024_03_my_post"%string.
Proof. reflexivity. Qed.

(** C2. The slug is the title in lower case with every space replaced by a
    hyphen, and that is the value of the [slug] field in the frontmatter a
    successful [init_content] writes to [index.md]. *)
Theorem C2_slug (title : string) :
  slug_of title = Spec.slug title
  ∧ ∀ (year month : Z) (content_type : string) (w w' : world),
      init_content title year month content_type content_types_to_dir w = (inr tt, w') →
      ∃ d fm,
        dict_get content_types_to_dir content_type = Some d
        ∧ files (fs w') !! rpath_of (index_file_path_of d title year month)
          = Some (Spec.render fm)
        ∧ Spec.fm_slug fm = Spec.slug title
        ∧ ((TAB +:+ "slug:" +:+ TAB +:+ Spec.slug title) +:+ NL) ∈ stdout w'.
Proof.
  split; [apply slug_of_spec|].
  intros year month content_type w w' (d & Ed & Hf & Hout)%init_content_written.
  exists d, (Spec.new_entry title (strftime_Ymd (clock w (ticks w))) content_type
               (Spec.slug title)).
  split; [assumption|]. rewrite <- frontmatter_of_render, <- slug_of_spec.
  split; [assumption|]. split; [reflexivity|].
  rewrite Hout. apply elem_of_app. right. unfold report_of.
  do 3 apply list_elem_of_further. apply list_elem_of_here.
Qed.

Example slug_my_post : slug_of "My Post" = "my-post"%string.
Proof. reflexivity. Qed.

Lemma content_type_nonempty (content_type : string) :
  content_type ∈ content_types → content_type ≠ EmptyString.
Proof.
  unfold content_types. cbn. intros H ->.
  repeat (apply elem_of_cons in H as [?|H]; [discriminate|]).
  now apply elem_of_nil in H.
Qed.

(** C7. For a title that is not empty and a known content type, the
    frontmatter written to [index.md] has a title, a date, a type and a
    slug that are not empty, an empty summary and no tags. *)
Theorem C7_frontmatter_fields (title : string) (year month : Z)
    (content_type : string) (w w' : world) :
  title ≠ EmptyString → content_type ∈ content_types →
  init_content title year month content_type content_types_to_dir w = (inr tt, w') →
  ∃ d fm,
    dict_get content_types_to_dir content_type = Some d
    ∧ files (fs w') !! rpath_of (index_file_path_of d title year month)
      = Some (Spec.render fm)
    ∧ Spec.fm_title fm = title ∧ Spec.fm_title fm ≠ EmptyString
    ∧ Spec.fm_date fm ≠ EmptyString
    ∧ Spec.fm_type fm = content_type ∧ Spec.fm_type fm ≠ EmptyString
    ∧ Spec.fm_slug fm ≠ EmptyString
    ∧ Spec.fm_summary fm = EmptyString
    ∧ Spec.fm_tags fm = [].
Proof.
  intros Ht Hct (d & Ed & Hf & _)%init_content_written.
  exists d, (Spec.new_entry title (strftime_Ymd (clock w (ticks w))) content_type
               (slug_of title)).
  rewrite <- frontmatter_of_render.
  cbn [Spec.new_entry Spec.fm_title Spec.fm_date Spec.fm_summary Spec.fm_tags
       Spec.fm_type Spec.fm_slug].
  repeat split; try assumption.
  - apply strftime_nonempty.
  - now apply content_type_nonempty.
  - rewrite slug_of_spec. now apply slug_nonempty.
Qed.

End Entry.

(** ** The error paths *)

Section Errors.
Import OS.

#[local] Arguments strip : simpl never.

(** C3. When the title the tool is given is empty once stripped, the run
    ends with an exit status that is not zero, by [sys.exit("Error: empty
    title")] unless the argument parser refused the command line before,
    and the file system is as it was. *)
Theorem C3_empty_title (argv : namespace) (w w' : world) (t : string)
    (r : exn + unit) :
  Spec.supplied_title argv (stdin w) = Some t →
  strip t = EmptyString →
  main argv w = (r, w') →
  exit_status r ≠ 0
  ∧ fs w' = fs w
  ∧ (r = inl (SystemExit "Error: empty title") ∨ ∃ msg, r = inl (ArgparseError msg)).
Proof.
  intros Ht Hs Hmain. pose proof (main_cases argv w) as H.
  unfold Spec.gathered in H. rewrite Ht, Hs in H. cbn in H.
  unfold Spec.rejected_choice in H.
  destruct (arg_type argv) as [v|]; [destruct (bool_decide (v ∈ content_types))|];
    destruct H as (w1 & H1 & Hfs); rewrite H1 in Hmain;
    injection Hmain as <- <-; cbn; eauto 6.
Qed.

(** C4. When the content type the tool is given is not one of the known
    types, the run ends with an exit status that is not zero, its message
    lists the valid types, and the file system is as it was. *)
Theorem C4_invalid_type (argv : namespace) (w w' : world) (ty : string)
    (r : exn + unit) :
  Spec.supplied_type argv (stdin w) = Some ty →
  ty ∉ content_types →
  main argv w = (r, w') →
  exit_status r ≠ 0
  ∧ (∃ msg, error_message r = Some msg ∧ Spec.lists_valid_types msg)
  ∧ fs w' = fs w.
Proof.
  intros Hty Hno Hmain. pose proof (main_cases argv w) as H.
  unfold Spec.gathered, Spec.rejected_choice in H.
  pose proof Hty as Hty'. unfold Spec.supplied_type in Hty'.
  destruct (arg_type argv) as [v|] eqn:E.
  - injection Hty' as ->. rewrite (bool_decide_eq_false_2 _ Hno) in H.
    destruct H as (w1 & H1 & Hfs). rewrite H1 in Hmain. injection Hmain as <- <-.
    split; [discriminate|]. split; [|assumption].
    eexists. split; [reflexivity|]. unfold Spec.lists_valid_types.
    rewrite <- (str_app_assoc _ " (choose from "), <- str_app_assoc.
    apply substring_of_app.
  - destruct (Spec.supplied_title argv (stdin w)) as [t|]; [|discriminate].
    destruct (String.eqb (strip t) ""); [discriminate|].
    rewrite Hty, (bool_decide_eq_false_2 _ Hno) in H.
    destruct H as (w1 & H1 & Hfs). rewrite H1 in Hmain. injection Hmain as <- <-.
    split; [discriminate|]. split; [|assumption].
    eexists. split; [reflexivity|]. reflexivity.
Qed.

(** C5. When the base directory of the content type is not there,
    [init_content] ends by [sys.exit] with a message that names the path,
    so with an exit status that is not zero, and leaves the world as it
    was: no entry directory, and no base directory either. *)
Theorem C5_missing_base_directory (title : string) (year month : Z)
    (content_type d : string) (w w' : world) (r : exn + unit) :
  dict_get content_types_to_dir content_type = Some d →
  path_exists ("content/" +:+ d) (fs w) = false →
  init_content title year month content_type content_types_to_dir w = (r, w') →
  r = inl (SystemExit ("Error: directory '" +:+ ("content/" +:+ d)
                         +:+ "' does not exist"))
  ∧ exit_status r ≠ 0
  ∧ (∃ msg, error_message r = Some msg
            ∧ substring_of ("content/" +:+ d) msg = true)
  ∧ w' = w
  ∧ path_exists ("content/" +:+ d) (fs w') = false.
Proof.
  intros Ed Ex Hrun. rewrite (init_content_missing _ _ _ _ d) in Hrun by assumption.
  injection Hrun as <- <-. split; [reflexivity|]. split; [discriminate|].
  split; [|auto]. eexists. split; [reflexivity|]. apply substring_of_app.
Qed.

(** The same at the level of the tool. *)
Lemma main_missing_base_directory (argv : namespace) (w w' : world)
    (title content_type d : string) (year month : Z) (r : exn + unit) :
  Spec.gathered argv (stdin w) (clock w (ticks w))
  = inr (title, content_type, year, month) →
  dict_get content_types_to_dir content_type = Some d →
  path_exists ("content/" +:+ d) (fs w) = false →
  main argv w = (r, w') →
  r = inl (SystemExit ("Error: directory '" +:+ ("content/" +:+ d)
                         +:+ "' does not exist"))
  ∧ fs w' = fs w.
Proof.
  intros Hg Ed Ex Hmain. pose proof (main_cases argv w) as H. rewrite Hg in H.
  destruct H as (wm & H1 & Hfs & _). rewrite H1 in Hmain.
  rewrite <- Hfs in Ex.
  rewrite (init_content_missing _ _ _ _ d) in Hmain by assumption.
  injection Hmain as <- <-. auto.
Qed.

(** A second call of [init_content] on what a first one left. *)
Lemma init_content_rerun (title : string) (year month : Z)
    (content_type : string) (w w1 w2 : world) :
  init_content title year month content_type content_types_to_dir w = (inr tt, w1) →
  fs w2 = fs w1 →
  ∃ d w3,
    dict_get content_types_to_dir content_type = Some d
    ∧ init_content title year month content_type content_types_to_dir w2 = (inr tt, w3)
    ∧ dirs (fs w3) = dirs (fs w1)
    ∧ is_Some (files (fs w1) !! rpath_of (index_file_path_of d title year month))
    ∧ files (fs w3)
      = <[ rpath_of (index_file_path_of d title year month)
           := frontmatter_of title (strftime_Ymd (clock w2 (ticks w2)))
                content_type (slug_of title) ]> (files (fs w1)).
Proof.
  intros (d & s1 & s2 & Ed & Hex & Hm & Hw & ->)%init_content_inv Hfs.
  cbn [world_after fs] in *.
  pose proof (write_text_ok _ _ _ _ Hw) as Hs2.
  pose proof (makedirs_ok _ _ _ Hm) as (_ & _ & Hfiles & Hdirs).
  assert (dirs s2 = dirs s1) as Hd by now rewrite Hs2.
  assert (keeps_files s1 s2) as Hkeep by (rewrite Hs2; apply keeps_files_insert).
  exists d. eexists. split; [assumption|]. split.
  - eapply init_content_run; [exact Ed | | |].
    + rewrite Hfs. eapply path_exists_grows; [| |exact Hex].
      * now rewrite Hd.
      * intros k Hk. apply Hkeep. now rewrite Hfiles.
    + rewrite Hfs. eapply makedirs_again; eauto.
    + eapply write_text_again; [exact Hw | exact Hd].
  - cbn [world_after fs dirs files]. split; [reflexivity|]. split.
    + rewrite Hs2. cbn. rewrite lookup_insert_eq. eauto.
    + reflexivity.
Qed.

(** C6. After a call of [init_content] that succeeded, a second call with
    the same title, year, month and content type succeeds too: the
    directories are the same as after the first call, and [index.md],
    which was there, holds the frontmatter of the second call and nothing
    else. *)
Theorem C6_rerun_overwrites (title : string) (year month : Z)
    (content_type : string) (w w1 w2 : world) :
  init_content title year month content_type content_types_to_dir w = (inr tt, w1) →
  fs w2 = fs w1 →
  ∃ d w3,
    dict_get content_types_to_dir content_type = Some d
    ∧ init_content title year month content_type content_types_to_dir w2 = (inr tt, w3)
    ∧ dirs (fs w3) = dirs (fs w1)
    ∧ is_Some (files (fs w1) !! rpath_of (index_file_path_of d title year month))
    ∧ files (fs w3)
      = <[ rpath_of (index_file_path_of d title year month)
           := frontmatter_of title (strftime_Ymd (clock w2 (ticks w2)))
                content_type (slug_of title) ]> (files (fs w1)).
Proof. apply init_content_rerun. Qed.

Lemma gathered_same_month (argv : namespace) (lines : list string) (now now' : datetime) :
  dt_year now' = dt_year now → dt_month now' = dt_month now →
  Spec.gathered argv lines now' = Spec.gathered argv lines now.
Proof. unfold Spec.gathered. now intros -> ->. Qed.

(** The same for the tool: a second run with the same command line and
    the same answers, in the same month, on what the first run left. *)
Lemma main_rerun (argv : namespace) (w w1 w2 : world) :
  main argv w = (inr tt, w1) →
  stdin w2 = stdin w → fs w2 = fs w1 →
  dt_year (clock w2 (ticks w2)) = dt_year (clock w (ticks w)) →
  dt_month (clock w2 (ticks w2)) = dt_month (clock w (ticks w)) →
  ∃ w3, main argv w2 = (inr tt, w3) ∧ dirs (fs w3) = dirs (fs w1).
Proof.
  intros Hmain Hin Hfs Hy Hm.
  pose proof (main_cases argv w) as H. pose proof (main_cases argv w2) as H2.
  rewrite Hin, (gathered_same_month _ _ _ _ Hy Hm) in H2.
  destruct (Spec.gathered argv (stdin w) (clock w (ticks w)))
    as [e|[[[title ct] y] m]].
  - destruct H as (w' & H & _). congruence.
  - destruct H as (wm & H & _). destruct H2 as (wm2 & H2 & Hfs2 & _).
    rewrite H in Hmain. rewrite H2.
    destruct (init_content_rerun _ _ _ _ _ _ wm2 Hmain) as (d & w3 & _ & Hrun & Hd & _);
      [congruence | eauto].
Qed.

End Errors.

(** ** Year and month *)

Section YearMonth.
Import OS.

#[local] Arguments strip : simpl never.

Lemma report_has_dir (d title : string) (year month : Z) (content_type : string) :
  ((TAB +:+ "dir:" +:+ TAB +:+ Spec.dir_name title year month) +:+ NL)
    ∈ report_of d title year month content_type.
Proof.
  unfold report_of. rewrite dir_name_of_spec.
  do 2 apply list_elem_of_further. apply list_elem_of_here.
Qed.

Lemma or_int_nonzero (z now : Z) : z ≠ 0 → or_int (Some z) now = z.
Proof. destruct z; [contradiction | reflexivity | reflexivity]. Qed.

(** With the four options given, [main] is [init_content] on their
    values, a zero year or month apart. *)
Lemma main_flags (t ct : string) (y m : Z) (w : world) :
  strip t ≠ EmptyString → ct ∈ content_types → y ≠ 0 → m ≠ 0 →
  main {| arg_title := Some t; arg_type := Some ct;
          arg_year := Some y; arg_month := Some m |} w
  = init_content (strip t) y m ct content_types_to_dir (clock_read w).
Proof.
  intros Ht Hct Hy Hm. rewrite main_gather, gather_inputs_flags by assumption.
  now rewrite !or_int_nonzero by assumption.
Qed.

Lemma main_flags_unknown_type (t ct : string) (y m : Z) (w w' : world) :
  ct ∉ content_types →
  main {| arg_title := Some t; arg_type := Some ct;
          arg_year := Some y; arg_month := Some m |} w ≠ (inr tt, w').
Proof.
  intros Hct Hmain.
  pose proof (main_cases {| arg_title := Some t; arg_type := Some ct;
                            arg_year := Some y; arg_month := Some m |} w) as H.
  unfold Spec.gathered, Spec.rejected_choice in H. cbn [arg_type] in H.
  rewrite (bool_decide_eq_false_2 _ Hct) in H.
  destruct H as (w1 & H1 & _). congruence.
Qed.

(** What [Spec.gathered] hands on: the stripped title, a known type, and
    the year and the month of the options or of the clock. *)
Lemma gathered_values (argv : namespace) (lines : list string) (now : datetime)
    (title content_type : string) (year month : Z) :
  Spec.gathered argv lines now = inr (title, content_type, year, month) →
  (∃ t, Spec.supplied_title argv lines = Some t ∧ title = strip t)
  ∧ Spec.supplied_type argv lines = Some content_type
  ∧ content_type ∈ content_types
  ∧ year = or_int (arg_year argv) (dt_year now)
  ∧ month = or_int (arg_month argv) (dt_month now).
Proof.
  unfold Spec.gathered. destruct (Spec.rejected_choice argv); [discriminate|].
  destruct (Spec.supplied_title argv lines) as [t|]; [|discriminate].
  destruct (String.eqb (strip t) ""); [discriminate|].
  destruct (Spec.supplied_type argv lines) as [ty|]; [|discriminate].
  destruct (bool_decide (ty ∈ content_types)) eqn:E; [|discriminate].
  apply bool_decide_eq_true in E. intros [= <- <- <- <-]. eauto 10.
Qed.

(** Whether [main] stops before [init_content], and how, does not depend
    on the year and the month of the command line. *)
Lemma gathered_stops_alike (ti ty : option string) (yr yr' mo mo' : option Z)
    (lines : list string) (now : datetime) (e : exn) :
  Spec.gathered {| arg_title := ti; arg_type := ty; arg_year := yr; arg_month := mo |}
    lines now = inl e →
  Spec.gathered {| arg_title := ti; arg_type := ty; arg_year := yr'; arg_month := mo' |}
    lines now = inl e.
Proof.
  unfold Spec.gathered, Spec.rejected_choice, Spec.supplied_type, Spec.supplied_title,
    Spec.lines_after_title.
  cbn [arg_title arg_type arg_year arg_month].
  destruct ty as [v|]; [destruct (bool_decide (v ∈ content_types)) eqn:Ev|];
    try exact id;
    (destruct (match ti with Some (String c s) => Some (String c s) | _ => head lines end)
       as [t|]; [|exact id];
     destruct (String.eqb (strip t) ""); [exact id|]);
    rewrite ?Ev; try discriminate.
  destruct (head _) as [x|]; [|exact id].
  destruct (bool_decide (x ∈ content_types)); [discriminate | exact id].
Qed.

(** A run of [main] that succeeds has created and reported the directory
    named after the stripped title and the year and the month of the
    options, or of the clock where an option is absent or zero. *)
Lemma main_ok_name (argv : namespace) (w w' : world) :
  main argv w = (inr tt, w') →
  ∃ t ct d,
    Spec.supplied_title argv (stdin w) = Some t
    ∧ Spec.supplied_type argv (stdin w) = Some ct
    ∧ dict_get content_types_to_dir ct = Some d
    ∧ let name := Spec.dir_name (strip t)
                    (or_int (arg_year argv) (dt_year (clock w (ticks w))))
                    (or_int (arg_month argv) (dt_month (clock w (ticks w)))) in
      ((TAB +:+ "dir:" +:+ TAB +:+ name) +:+ NL) ∈ stdout w'
      ∧ isdir_at (rpath_of (path_join ("content/" +:+ d) name)) (fs w') = true.
Proof.
  intros Hmain. pose proof (main_cases argv w) as H.
  destruct (Spec.gathered argv (stdin w) (clock w (ticks w)))
    as [e|[[[title ct] y] m]] eqn:Eg.
  - destruct H as (w1 & H & _). congruence.
  - apply gathered_values in Eg as ((t & Ht & ->) & Hty & _ & -> & ->).
    destruct H as (wm & H & _). rewrite H in Hmain.
    apply init_content_inv in Hmain as (d & s1 & s2 & Ed & _ & Hm & Hw & ->).
    exists t, ct, d. repeat (split; [assumption|]). cbn zeta.
    rewrite <- dir_name_of_spec. split.
    + cbn. apply elem_of_app. right. rewrite dir_name_of_spec. apply report_has_dir.
    + apply makedirs_ok in Hm as (_ & Hd & _ & _).
      apply write_text_ok in Hw as ->. exact Hd.
Qed.

(** C8, as amended. A month given with [--month] that is not zero, inside
    1..12 or not, is not checked. Whether the title, the type and the year
    come from the command line, a prompt or the clock: a run that stops
    before [init_content] stops the same way with any other [--month];
    otherwise [main] hands the month itself to [init_content], which
    succeeds with it whenever the file system lets it; and the directory
    of every run that succeeds is named with the month in the two-digit
    format. *)
Theorem C8_nonzero_month_embedded (m : Z) (argv : namespace) (w : world) :
  m ≠ 0 → arg_month argv = Some m →
  Spec.month_embedded m
  ∧ match Spec.gathered argv (stdin w) (clock w (ticks w)) with
    | inl e =>
        ∀ mo, ∃ w',
          main {| arg_title := arg_title argv; arg_type := arg_type argv;
                  arg_year := arg_year argv; arg_month := mo |} w = (inl e, w')
          ∧ fs w' = fs w
    | inr (title, content_type, year, month) =>
        month = m
        ∧ ∃ wm, main argv w
                = init_content title year m content_type content_types_to_dir wm
                ∧ fs wm = fs w
    end
  ∧ (∀ w', main argv w = (inr tt, w') →
       ∃ t ct d,
         Spec.supplied_title argv (stdin w) = Some t
         ∧ Spec.supplied_type argv (stdin w) = Some ct
         ∧ dict_get content_types_to_dir ct = Some d
         ∧ let year := or_int (arg_year argv) (dt_year (clock w (ticks w))) in
           let name := Spec.dir_name (strip t) year m in
           ((TAB +:+ "dir:" +:+ TAB +:+ name) +:+ NL) ∈ stdout w'
           ∧ isdir_at (rpath_of (path_join ("content/" +:+ d) name)) (fs w') = true
           ∧ name = str_int year +:+ "_" +:+ format_d 2 m +:+ "_"
                      +:+ lower (Spec.subst_char " " "_" (strip t)))
  ∧ (∀ (title content_type d : string) (year : Z) (wi : world) (s1 s2 : filesystem),
       dict_get content_types_to_dir content_type = Some d →
       path_exists (base_dir_of d) (fs wi) = true →
       makedirs (dir_path_of d title year m) (fs wi) = inr s1 →
       write_text (index_file_path_of d title year m)
         (frontmatter_of title (strftime_Ymd (clock wi (ticks wi))) content_type
            (slug_of title)) s1 = inr s2 →
       init_content title year m content_type content_types_to_dir wi
       = (inr tt, world_after wi (report_of d title year m content_type) s2)).
Proof.
  intros Hm Hmo. split; [|split; [|split]].
  - intros t ct y w0 w' Ht Hy Hmain.
    destruct (decide (ct ∈ content_types)) as [Hct|Hct].
    + rewrite main_flags in Hmain by assumption.
      apply init_content_written in Hmain as (d & _ & _ & ->).
      apply elem_of_app. right. apply report_has_dir.
    + now apply main_flags_unknown_type in Hmain.
  - destruct (Spec.gathered argv (stdin w) (clock w (ticks w)))
      as [e|[[[title ct] y] m']] eqn:Eg.
    + intros mo. destruct argv as [ti ty yr mo0].
      cbn [arg_title arg_type arg_year arg_month].
      pose proof (main_cases {| arg_title := ti; arg_type := ty;
                                arg_year := yr; arg_month := mo |} w) as H.
      rewrite (gathered_stops_alike _ _ _ yr _ mo _ _ _ Eg) in H. exact H.
    + pose proof (main_cases argv w) as H. rewrite Eg in H.
      apply gathered_values in Eg as (_ & _ & _ & _ & Hmonth).
      rewrite Hmo, (or_int_nonzero _ _ Hm) in Hmonth. subst m'.
      split; [reflexivity|]. destruct H as (wm & H & Hfs & _). eauto.
  - intros w' Hmain.
    destruct (main_ok_name _ _ _ Hmain) as (t & ct & d & Ht & Hty & Ed & Hline & Hdir).
    rewrite Hmo, (or_int_nonzero _ _ Hm) in Hline, Hdir.
    exists t, ct, d. repeat (split; [assumption|]). apply dir_name_parts.
  - intros title ct d year wi s1 s2. apply init_content_run.
Qed.

(** C8, as stated, fails at the month 0, which is outside 1..12: the run
    with [--month 0] on the fourth of November 2026 succeeds with the
    directory name of the month 11. *)
Lemma C8_month_zero_not_embedded : ¬ Spec.months_outside_range_embedded.
Proof.
  intros H.
  specialize (H 0 (or_introl eq_refl) "My Post"%string "post"%string 2024
                (Sample.start [] Sample.site)).
  destruct (main {| arg_title := Some "My Post"%string; arg_type := Some "post"%string;
                    arg_year := Some 2024; arg_month := Some 0 |}
              (Sample.start [] Sample.site)) as [r w'] eqn:E.
  vm_compute in E. injection E as <- <-.
  specialize (H _ ltac:(discriminate) ltac:(discriminate) eq_refl).
  apply (bool_decide_eq_true_2 _) in H. vm_compute in H. discriminate.
Qed.

(** The month 13 on the sample site. *)
Example month_13_accepted :
  ∃ w', main (Sample.flags "My Post" "post" 2024 13) (Sample.start [] Sample.site)
        = (inr tt, w')
    ∧ isdir_at ["2024_13_my_post"; "posts"; "content"]%string (fs w') = true.
Proof. eexists. split; [vm_compute; reflexivity | vm_compute; reflexivity]. Qed.

(** C9. [--year 0] and [--month 0] are the same as no option: the run is
    that of the command line without it, and the directory of a run that
    succeeds is named with the year, or the month, that [main] read from
    the clock. *)
Theorem C9_zero_is_omitted (ti ty : option string) (yr mo : option Z) (w : world) :
  (main {| arg_title := ti; arg_type := ty; arg_year := Some 0; arg_month := mo |} w
   = main {| arg_title := ti; arg_type := ty; arg_year := None; arg_month := mo |} w
   ∧ ∀ w',
       main {| arg_title := ti; arg_type := ty; arg_year := Some 0; arg_month := mo |} w
       = (inr tt, w') →
       ∃ t ct d,
         Spec.supplied_title
           {| arg_title := ti; arg_type := ty; arg_year := Some 0; arg_month := mo |}
           (stdin w) = Some t
         ∧ Spec.supplied_type
             {| arg_title := ti; arg_type := ty; arg_year := Some 0; arg_month := mo |}
             (stdin w) = Some ct
         ∧ dict_get content_types_to_dir ct = Some d
         ∧ let name := Spec.dir_name (strip t) (dt_year (clock w (ticks w)))
                         (or_int mo (dt_month (clock w (ticks w)))) in
           ((TAB +:+ "dir:" +:+ TAB +:+ name) +:+ NL) ∈ stdout w'
           ∧ isdir_at (rpath_of (path_join ("content/" +:+ d) name)) (fs w') = true)
  ∧ (main {| arg_title := ti; arg_type := ty; arg_year := yr; arg_month := Some 0 |} w
     = main {| arg_title := ti; arg_type := ty; arg_year := yr; arg_month := None |} w
     ∧ ∀ w',
         main {| arg_title := ti; arg_type := ty; arg_year := yr; arg_month := Some 0 |} w
         = (inr tt, w') →
         ∃ t ct d,
           Spec.supplied_title
             {| arg_title := ti; arg_type := ty; arg_year := yr; arg_month := Some 0 |}
             (stdin w) = Some t
           ∧ Spec.supplied_type
               {| arg_title := ti; arg_type := ty; arg_year := yr; arg_month := Some 0 |}
               (stdin w) = Some ct
           ∧ dict_get content_types_to_dir ct = Some d
           ∧ let name := Spec.dir_name (strip t)
                           (or_int yr (dt_year (clock w (ticks w))))
                           (dt_month (clock w (ticks w))) in
             ((TAB +:+ "dir:" +:+ TAB +:+ name) +:+ NL) ∈ stdout w'
             ∧ isdir_at (rpath_of (path_join ("content/" +:+ d) name)) (fs w') = true)
  ∧ ∀ now : Z, or_int (Some 0) now = now ∧ or_int None now = now.
Proof.
  assert (main {| arg_title := ti; arg_type := ty; arg_year := Some 0; arg_month := mo |} w
          = main {| arg_title := ti; arg_type := ty; arg_year := None; arg_month := mo |} w)
    as Hyear.
  { unfold main, parse_args, mbind, mret, M_bind, M_ret, raise.
    cbn [arg_title arg_type arg_year arg_month].
    destruct ty as [v|]; [destruct (bool_decide (v ∈ content_types))|]; reflexivity. }
  assert (main {| arg_title := ti; arg_type := ty; arg_year := yr; arg_month := Some 0 |} w
          = main {| arg_title := ti; arg_type := ty; arg_year := yr; arg_month := None |} w)
    as Hmonth.
  { unfold main, parse_args, mbind, mret, M_bind, M_ret, raise.
    cbn [arg_title arg_type arg_year arg_month].
    destruct ty as [v|]; [destruct (bool_decide (v ∈ content_types))|]; reflexivity. }
  split; [|split].
  - split; [exact Hyear|]. intros w' Hmain. exact (main_ok_name _ _ _ Hmain).
  - split; [exact Hmonth|]. intros w' Hmain. exact (main_ok_name _ _ _ Hmain).
  - intros now. split; reflexivity.
Qed.

(** On the fourth of November 2026, [--year 0 --month 0] gives 2026_11. *)
Example year_0_month_0 :
  ∃ w', main (Sample.flags "My Post" "post" 0 0) (Sample.start [] Sample.site)
        = (inr tt, w')
    ∧ isdir_at ["2026_11_my_post"; "posts"; "content"]%string (fs w') = true.
Proof. eexists. split; [vm_compute; reflexivity | vm_compute; reflexivity]. Qed.

End YearMonth.

(** ** The title in the frontmatter *)

Section Title.
Import OS.

#[local] Arguments strip : simpl never.

Lemma contains_char_cons (c x : ascii) (s : string) :
  contains_char c (String x s) = true → x ≠ c → contains_char c s = true.
Proof.
  cbn. destruct (Ascii.eqb_spec c x) as [->|]; [contradiction | tauto].
Qed.

(** Reading a quoted string uses up more characters than it gives, and
    one more again when the value read has a double quote, which can come
    from an escape only. *)
Lemma read_body_shorter (unescape : ascii -> option ascii) (n : nat) :
  ∀ s v rest,
    (String.length s ≤ n)%nat →
    Spec.read_body unescape s = Some (v, rest) →
    (String.length v + String.length rest < String.length s)%nat
    ∧ (contains_char dquote v = true →
       (String.length v + String.length rest + 1 < String.length s)%nat).
Proof.
  induction n as [|n IH]; intros s v rest Hn; (destruct s as [|c s']; [discriminate|]).
  - cbn in Hn. lia.
  - cbn [Spec.read_body]. destruct (Ascii.eqb_spec c dquote) as [->|Hq].
    + intros [= <- <-]. cbn. split; [lia | discriminate].
    + destruct (Ascii.eqb c backslash).
      * destruct s' as [|e s'']; [discriminate|].
        destruct (unescape e) as [d|]; [|discriminate].
        destruct (Spec.read_body unescape s'') as [[v0 rest0]|] eqn:E; [|discriminate].
        intros [= <- <-]. cbn in Hn.
        destruct (IH s'' v0 rest0 ltac:(lia) E) as [H1 _]. cbn. lia.
      * destruct (Spec.read_body unescape s') as [[v0 rest0]|] eqn:E; [|discriminate].
        intros [= <- <-]. cbn in Hn.
        destruct (IH s' v0 rest0 ltac:(lia) E) as [H1 H2]. cbn [String.length].
        split; [lia|]. intros Hc%contains_char_cons; [|assumption].
        specialize (H2 Hc). lia.
Qed.

(** A title with a double quote, written between double quotes as it is,
    does not read back as that title. *)
Lemma quoted_title_misread (unescape : ascii -> option ascii) (title : string) :
  contains_char dquote title = true →
  Spec.read_quoted unescape (Spec.quoted title) ≠ Some (title, EmptyString).
Proof.
  intros Hc H. unfold Spec.quoted, DQ in H.
  change (Spec.read_body unescape (title +:+ String dquote EmptyString)
          = Some (title, EmptyString)) in H.
  apply (read_body_shorter unescape _ _ _ _ (le_n _)) in H as [_ H].
  specialize (H Hc). rewrite str_app_length in H. cbn in H. lia.
Qed.

Lemma frontmatter_of_title (title date content_type slug : string) :
  ∃ rest, frontmatter_of title date content_type slug
          = "+++" +:+ NL +:+ "title = " +:+ Spec.quoted title +:+ NL +:+ rest.
Proof.
  eexists. unfold frontmatter_of, Spec.quoted. rewrite !str_app_assoc. reflexivity.
Qed.

(** A run of [main] that succeeds ran [init_content] on the stripped
    title. *)
Lemma main_ok_inv (argv : namespace) (w w' : world) (t : string) :
  Spec.supplied_title argv (stdin w) = Some t →
  main argv w = (inr tt, w') →
  ∃ content_type year month wm,
    init_content (strip t) year month content_type content_types_to_dir wm
    = (inr tt, w')
    ∧ strip t ≠ EmptyString ∧ content_type ∈ content_types
    ∧ fs wm = fs w ∧ clock wm = clock w ∧ ticks wm = S (ticks w).
Proof.
  intros Ht Hmain. pose proof (main_cases argv w) as H.
  unfold Spec.gathered in H. rewrite Ht in H.
  destruct (Spec.rejected_choice argv);
    [destruct H as (w1 & H1 & _); congruence|].
  destruct (String.eqb_spec (strip t) "") as [|Hne];
    [destruct H as (w1 & H1 & _); congruence|].
  destruct (Spec.supplied_type argv (stdin w)) as [ty|];
    [|destruct H as (w1 & H1 & _); congruence].
  destruct (bool_decide (ty ∈ content_types)) eqn:Ety;
    [|destruct H as (w1 & H1 & _); congruence].
  destruct H as (wm & H1 & Hfs & Hclock & Hticks). rewrite H1 in Hmain.
  apply bool_decide_eq_true in Ety. eauto 10.
Qed.

(** C10. The title field of the frontmatter is the stripped title between
    double quotes, as it is; when the title has a double quote, the field
    does not read back as the title, whatever the table of escapes. *)
Theorem C10_title_not_escaped (unescape : ascii -> option ascii)
    (argv : namespace) (w w' : world) (t : string) :
  Spec.supplied_title argv (stdin w) = Some t →
  contains_char dquote (strip t) = true →
  main argv w = (inr tt, w') →
  (∃ d year month rest,
      files (fs w') !! rpath_of (index_file_path_of d (strip t) year month)
      = Some ("+++" +:+ NL +:+ "title = " +:+ Spec.quoted (strip t) +:+ NL +:+ rest))
  ∧ Spec.quoted (strip t) = DQ +:+ strip t +:+ DQ
  ∧ Spec.read_quoted unescape (Spec.quoted (strip t)) ≠ Some (strip t, EmptyString).
Proof.
  intros Ht Hc Hmain. split; [|split; [reflexivity | now apply quoted_title_misread]].
  destruct (main_ok_inv _ _ _ _ Ht Hmain) as (ct & y & m & wm & Hrun & _).
  apply init_content_written in Hrun as (d & _ & Hf & _).
  destruct (frontmatter_of_title (strip t) (strftime_Ymd (clock wm (ticks wm))) ct
              (slug_of (strip t))) as [rest Hrest].
  exists d, y, m, rest. now rewrite <- Hrest.
Qed.

End Title.

(** ** The theorems at work on the sample site *)

Section Witnesses.
Import OS.

Lemma C1_directory_name_witness :
  init_content "My Post" 2024 3 "post" content_types_to_dir (Sample.start [] Sample.site)
  = (inr tt, Sample.my_post_created)
  ∧ ∃ d, dict_get content_types_to_dir "post" = Some d
      ∧ isdir_at (rpath_of (path_join ("content/" +:+ d) "2024_03_my_post"))
          (fs Sample.my_post_created) = true
      ∧ ((TAB +:+ "dir:" +:+ TAB +:+ "2024_03_my_post") +:+ NL)
          ∈ stdout Sample.my_post_created.
Proof.
  split; [vm_compute; reflexivity|].
  apply (proj2 (C1_directory_name "My Post" 2024 3) "post" (Sample.start [] Sample.site)).
  vm_compute; reflexivity.
Defined.

Lemma C2_slug_witness :
  init_content "My Post" 2024 3 "post" content_types_to_dir (Sample.start [] Sample.site)
  = (inr tt, Sample.my_post_created)
  ∧ ∃ d fm,
      dict_get content_types_to_dir "post" = Some d
      ∧ files (fs Sample.my_post_created)
          !! rpath_of (index_file_path_of d "My Post" 2024 3)
        = Some (Spec.render fm)
      ∧ Spec.fm_slug fm = "my-post"%string
      ∧ ((TAB +:+ "slug:" +:+ TAB +:+ "my-post") +:+ NL) ∈ stdout Sample.my_post_created.
Proof.
  split; [vm_compute; reflexivity|].
  apply (proj2 (C2_slug "My Post") 2024 3 "post" (Sample.start [] Sample.site)).
  vm_compute; reflexivity.
Defined.

Lemma C3_empty_title_witness :
  let w := Sample.start [] Sample.site in
  let r : exn + unit := inl (SystemExit "Error: empty title") in
  Spec.supplied_title Sample.blank_flags (stdin w) = Some "   "%string
  ∧ strip "   " = EmptyString
  ∧ main Sample.blank_flags w = (r, w)
  ∧ exit_status r ≠ 0
  ∧ fs w = fs w
  ∧ (r = inl (SystemExit "Error: empty title") ∨ ∃ msg, r = inl (ArgparseError msg)).
Proof.
  intros w r.
  split; [reflexivity|]. split; [reflexivity|]. split; [vm_compute; reflexivity|].
  apply (C3_empty_title Sample.blank_flags w w "   " r);
    [reflexivity | reflexivity | vm_compute; reflexivity].
Defined.

Lemma C4_invalid_type_witness :
  let w := Sample.start ["page"%string] Sample.site in
  Spec.supplied_type Sample.no_type (stdin w) = Some "page"%string
  ∧ ("page"%string ∉ content_types)
  ∧ main Sample.no_type w = ((main Sample.no_type w).1, (main Sample.no_type w).2)
  ∧ exit_status (main Sample.no_type w).1 ≠ 0
  ∧ (∃ msg, error_message (main Sample.no_type w).1 = Some msg
            ∧ Spec.lists_valid_types msg)
  ∧ fs (main Sample.no_type w).2 = fs w.
Proof.
  intros w.
  assert ("page"%string ∉ content_types) as Hno.
  { intros H. apply (bool_decide_eq_true_2 _) in H. vm_compute in H. discriminate. }
  split; [reflexivity|]. split; [exact Hno|]. split; [vm_compute; reflexivity|].
  apply (C4_invalid_type Sample.no_type w (main Sample.no_type w).2 "page");
    [reflexivity | exact Hno | vm_compute; reflexivity].
Defined.

Lemma C5_missing_base_directory_witness :
  let w := Sample.start [] Sample.posts_only in
  let r : exn + unit := inl (SystemExit "Error: directory 'content/notes' does not exist") in
  dict_get content_types_to_dir "note" = Some "notes"%string
  ∧ path_exists ("content/" +:+ "notes") (fs w) = false
  ∧ init_content "My Post" 2024 3 "note" content_types_to_dir w = (r, w)
  ∧ r = inl (SystemExit ("Error: directory '" +:+ ("content/" +:+ "notes")
                           +:+ "' does not exist"))
  ∧ exit_status r ≠ 0
  ∧ (∃ msg, error_message r = Some msg
            ∧ substring_of ("content/" +:+ "notes") msg = true)
  ∧ w = w
  ∧ path_exists ("content/" +:+ "notes") (fs w) = false.
Proof.
  intros w r.
  split; [reflexivity|]. split; [vm_compute; reflexivity|].
  split; [vm_compute; reflexivity|].
  apply (C5_missing_base_directory "My Post" 2024 3 "note" "notes" w w r);
    [reflexivity | vm_compute; reflexivity | vm_compute; reflexivity].
Defined.

Lemma C6_rerun_overwrites_witness :
  init_content "My Post" 2024 3 "post" content_types_to_dir (Sample.start [] Sample.site)
  = (inr tt, Sample.my_post_created)
  ∧ fs Sample.later = fs Sample.my_post_created
  ∧ ∃ d w3,
      dict_get content_types_to_dir "post" = Some d
      ∧ init_content "My Post" 2024 3 "post" content_types_to_dir Sample.later
        = (inr tt, w3)
      ∧ dirs (fs w3) = dirs (fs Sample.my_post_created)
      ∧ is_Some (files (fs Sample.my_post_created)
                   !! rpath_of (index_file_path_of d "My Post" 2024 3))
      ∧ files (fs w3)
        = <[ rpath_of (index_file_path_of d "My Post" 2024 3)
             := frontmatter_of "My Post"
                  (strftime_Ymd (clock Sample.later (ticks Sample.later)))
                  "post" (slug_of "My Post") ]> (files (fs Sample.my_post_created)).
Proof.
  split; [vm_compute; reflexivity|]. split; [reflexivity|].
  apply (C6_rerun_overwrites "My Post" 2024 3 "post" (Sample.start [] Sample.site)
           Sample.my_post_created Sample.later);
    [vm_compute; reflexivity | reflexivity].
Defined.

Lemma C7_frontmatter_fields_witness :
  "My Post"%string ≠ EmptyString
  ∧ ("post"%string ∈ content_types)
  ∧ init_content "My Post" 2024 3 "post" content_types_to_dir
      (Sample.start [] Sample.site) = (inr tt, Sample.my_post_created)
  ∧ ∃ d fm,
      dict_get content_types_to_dir "post" = Some d
      ∧ files (fs Sample.my_post_created)
          !! rpath_of (index_file_path_of d "My Post" 2024 3)
        = Some (Spec.render fm)
      ∧ Spec.fm_title fm = "My Post"%string ∧ Spec.fm_title fm ≠ EmptyString
      ∧ Spec.fm_date fm ≠ EmptyString
      ∧ Spec.fm_type fm = "post"%string ∧ Spec.fm_type fm ≠ EmptyString
      ∧ Spec.fm_slug fm ≠ EmptyString
      ∧ Spec.fm_summary fm = EmptyString
      ∧ Spec.fm_tags fm = [].
Proof.
  assert ("post"%string ∈ content_types) as Hin by apply list_elem_of_here.
  split; [discriminate|]. split; [exact Hin|]. split; [vm_compute; reflexivity|].
  apply (C7_frontmatter_fields "My Post" 2024 3 "post" (Sample.start [] Sample.site));
    [discriminate | exact Hin | vm_compute; reflexivity].
Defined.

Lemma C8_nonzero_month_embedded_witness :
  let argv := Sample.flags "My Post" "post" 2024 13 in
  let w := Sample.start [] Sample.site in
  let w' := (main argv w).2 in
  13 ≠ 0
  ∧ arg_month argv = Some 13
  ∧ main argv w = (inr tt, w')
  ∧ ∃ t ct d,
      Spec.supplied_title argv (stdin w) = Some t
      ∧ Spec.supplied_type argv (stdin w) = Some ct
      ∧ dict_get content_types_to_dir ct = Some d
      ∧ let year := or_int (arg_year argv) (dt_year (clock w (ticks w))) in
        let name := Spec.dir_name (strip t) year 13 in
        ((TAB +:+ "dir:" +:+ TAB +:+ name) +:+ NL) ∈ stdout w'
        ∧ isdir_at (rpath_of (path_join ("content/" +:+ d) name)) (fs w') = true
        ∧ name = str_int year +:+ "_" +:+ format_d 2 13 +:+ "_"
                   +:+ lower (Spec.subst_char " " "_" (strip t)).
Proof.
  intros argv w w'.
  assert (13 ≠ 0) as H1 by discriminate.
  assert (arg_month argv = Some 13) as H2 by reflexivity.
  split; [exact H1|]. split; [exact H2|]. split; [vm_compute; reflexivity|].
  apply (proj1 (proj2 (proj2 (C8_nonzero_month_embedded 13 argv w H1 H2))) w').
  vm_compute; reflexivity.
Defined.

Lemma C9_zero_is_omitted_witness :
  let w := Sample.start [] Sample.site in
  let argv := Sample.flags "My Post" "post" 0 3 in
  let w' := (main argv w).2 in
  main argv w = (inr tt, w')
  ∧ ∃ t ct d,
      Spec.supplied_title argv (stdin w) = Some t
      ∧ Spec.supplied_type argv (stdin w) = Some ct
      ∧ dict_get content_types_to_dir ct = Some d
      ∧ let name := Spec.dir_name (strip t) (dt_year (clock w (ticks w)))
                      (or_int (Some 3) (dt_month (clock w (ticks w)))) in
        ((TAB +:+ "dir:" +:+ TAB +:+ name) +:+ NL) ∈ stdout w'
        ∧ isdir_at (rpath_of (path_join ("content/" +:+ d) name)) (fs w') = true.
Proof.
  intros w argv w'. split; [vm_compute; reflexivity|].
  apply (proj2 (proj1 (C9_zero_is_omitted (Some "My Post"%string) (Some "post"%string)
                         (Some 2024) (Some 3) w)) w').
  vm_compute; reflexivity.
Defined.

Lemma C10_title_not_escaped_witness :
  let w := Sample.start [] Sample.site in
  let w' := (main Sample.quoting_flags w).2 in
  let t := Sample.quoting_title in
  Spec.supplied_title Sample.quoting_flags (stdin w) = Some t
  ∧ contains_char dquote (strip t) = true
  ∧ main Sample.quoting_flags w = (inr tt, w')
  ∧ (∃ d year month rest,
        files (fs w') !! rpath_of (index_file_path_of d (strip t) year month)
        = Some ("+++" +:+ NL +:+ "title = " +:+ Spec.quoted (strip t) +:+ NL +:+ rest))
  ∧ Spec.quoted (strip t) = DQ +:+ strip t +:+ DQ
  ∧ Spec.read_quoted Spec.toml_unescape (Spec.quoted (strip t))
    ≠ Some (strip t, EmptyString).
Proof.
  intros w w' t.
  split; [reflexivity|]. split; [reflexivity|]. split; [vm_compute; reflexivity|].
  apply (C10_title_not_escaped Spec.toml_unescape Sample.quoting_flags w w' t);
    [reflexivity | reflexivity | vm_compute; reflexivity].
Defined.

End Witnesses.

(** * More on the names *)

(** ** The slug and the characters of a name *)

Section NameCharacters.

Ltac by_cases_on c :=
  destruct c as [[|] [|] [|] [|] [|] [|] [|] [|]]; vm_compute; reflexivity.

Lemma lower_char_idem (c : ascii) : lower_char (lower_char c) = lower_char c.
Proof. by_cases_on c. Qed.

Lemma lower_char_space (c : ascii) : Ascii.eqb " " (lower_char c) = Ascii.eqb " " c.
Proof. by_cases_on c. Qed.

Lemma lower_char_slash (c : ascii) : Ascii.eqb "/" (lower_char c) = Ascii.eqb "/" c.
Proof. by_cases_on c. Qed.

Lemma lower_idem (s : string) : lower (lower s) = lower s.
Proof.
  unfold lower. induction s as [|c s IH]; [reflexivity|].
  cbn. now rewrite lower_char_idem, IH.
Qed.

Lemma contains_char_map (x : ascii) (f : ascii -> ascii) (s : string) :
  (∀ c, Ascii.eqb x (f c) = Ascii.eqb x c) →
  contains_char x (map_chars f s) = contains_char x s.
Proof.
  intros Hf. induction s as [|c s IH]; [reflexivity|].
  cbn. now rewrite Hf, IH.
Qed.

Lemma contains_char_app (x : ascii) (a b : string) :
  contains_char x (a +:+ b) = contains_char x a || contains_char x b.
Proof.
  induction a as [|c a IH]; [reflexivity|].
  change (contains_char x (String c (a +:+ b))
          = contains_char x (String c a) || contains_char x b).
  cbn. now rewrite IH, orb_assoc.
Qed.

(** After the substitution the replaced character is gone. *)
Lemma subst_char_gone (a b : ascii) (s : string) :
  a ≠ b → contains_char a (Spec.subst_char a b s) = false.
Proof.
  intros Hab. unfold Spec.subst_char. induction s as [|c s IH]; [reflexivity|].
  cbn. rewrite IH, orb_false_r.
  destruct (Ascii.eqb_spec c a) as [->|Hc].
  - now apply Ascii.eqb_neq.
  - apply Ascii.eqb_neq. congruence.
Qed.

(** The substitution brings in no character but the new one. *)
Lemma subst_char_other (x a b : ascii) (s : string) :
  x ≠ b → contains_char x s = false → contains_char x (Spec.subst_char a b s) = false.
Proof.
  intros Hxb. unfold Spec.subst_char. induction s as [|c s IH]; [reflexivity|].
  cbn. intros [Hc Hs]%orb_false_elim. rewrite (IH Hs), orb_false_r.
  destruct (Ascii.eqb c a); [now apply Ascii.eqb_neq | assumption].
Qed.

Lemma subst_char_absent (a b : ascii) (s : string) :
  contains_char a s = false → Spec.subst_char a b s = s.
Proof.
  unfold Spec.subst_char. induction s as [|c s IH]; [reflexivity|].
  cbn. intros [Hc Hs]%orb_false_elim.
  rewrite Ascii.eqb_sym, Hc. now rewrite (IH Hs).
Qed.

Lemma slug_no_space (title : string) : contains_char " " (Spec.slug title) = false.
Proof.
  unfold Spec.slug, lower.
  rewrite (contains_char_map _ _ _ lower_char_space).
  now apply subst_char_gone.
Qed.

(** X1. The slug is in normal form: it has no space, lower-casing it
    changes nothing, and the slug of a slug is the slug itself. *)
Theorem slug_normal_form (title : string) :
  contains_char " " (slug_of title) = false
  ∧ lower (slug_of title) = slug_of title
  ∧ slug_of (slug_of title) = slug_of title.
Proof.
  rewrite !slug_of_spec. split; [apply slug_no_space|].
  split; [unfold Spec.slug; apply lower_idem|].
  unfold Spec.slug at 1. rewrite (subst_char_absent _ _ _ (slug_no_space title)).
  unfold Spec.slug. apply lower_idem.
Qed.

End NameCharacters.

(** ** Year and month in the name *)

Section NameNumbers.

Lemma uint_of_digits (n : N) : NilEmpty.uint_of_string (digits n) = Some (N.to_uint n).
Proof.
  unfold digits, NilZero.string_of_uint.
  destruct n as [|p]; [reflexivity|].
  cbn [N.to_uint]. pose proof (DecimalPos.Unsigned.to_uint_nonnil p) as Hp.
  destruct (Pos.to_uint p) eqn:E; [contradiction| ..];
    rewrite <- E; apply NilEmpty.usu.
Qed.

Lemma digits_nonempty (n : N) : digits n ≠ EmptyString.
Proof.
  intros H. pose proof (uint_of_digits n) as Hn. rewrite H in Hn.
  injection Hn as Hn. destruct n as [|p]; [discriminate|].
  now apply (DecimalPos.Unsigned.to_uint_nonnil p).
Qed.

(** Zeros in front do not change the number read. *)
Lemma uint_of_zeros (k : nat) (s : string) (d : Decimal.uint) :
  NilEmpty.uint_of_string s = Some d →
  ∃ d', NilEmpty.uint_of_string (repeat_char "0" k +:+ s) = Some d'
        ∧ N.of_uint d' = N.of_uint d.
Proof.
  intros Hs. induction k as [|k (d' & Hd' & Hn)]; [eauto|].
  exists (Decimal.D0 d'). split; [|exact Hn].
  change (NilEmpty.uint_of_string (String "0" (repeat_char "0" k +:+ s))
          = Some (Decimal.D0 d')).
  cbn [NilEmpty.uint_of_string]. now rewrite Hd'.
Qed.

Lemma int_of_str_digits (s : string) (d : Decimal.uint) :
  s ≠ EmptyString →
  NilEmpty.uint_of_string s = Some d →
  int_of_str s = Some (Z.of_N (N.of_uint d)).
Proof.
  destruct s as [|c s']; [contradiction|]. intros _ Hs.
  unfold int_of_str. destruct (Ascii.eqb_spec c "-") as [->|_].
  - cbn in Hs. destruct (NilEmpty.uint_of_string s'); discriminate.
  - now rewrite Hs.
Qed.

(** The number written by [format_d] reads back as itself, whatever the
    width. *)
Lemma int_of_str_format_d (width : nat) (z : Z) : int_of_str (format_d width z) = Some z.
Proof.
  unfold format_d.
  set (k := (width - _ - _)%nat). clearbody k.
  destruct (uint_of_zeros k _ _ (uint_of_digits (Z.abs_N z))) as (d' & Hd' & Hn).
  rewrite DecimalN.Unsigned.of_to in Hn.
  destruct (Z.ltb_spec z 0) as [Hneg|Hpos].
  - change (int_of_str (String "-" (repeat_char "0" k +:+ digits (Z.abs_N z))) = Some z).
    cbn [int_of_str]. rewrite Ascii.eqb_refl.
    assert (NilZero.uint_of_string (repeat_char "0" k +:+ digits (Z.abs_N z)) = Some d')
      as ->.
    { pose proof (app_nonempty_r (repeat_char "0" k) _ (digits_nonempty (Z.abs_N z))) as Hne.
      unfold NilZero.uint_of_string.
      destruct (repeat_char "0" k +:+ digits (Z.abs_N z)); [contradiction | exact Hd']. }
    cbn. rewrite Hn. f_equal. lia.
  - change (int_of_str (repeat_char "0" k +:+ digits (Z.abs_N z)) = Some z).
    rewrite (int_of_str_digits _ d'); [|apply app_nonempty_r, digits_nonempty|exact Hd'].
    rewrite Hn. f_equal. lia.
Qed.

Lemma format_d_inj (width : nat) (z z' : Z) :
  format_d width z = format_d width z' → z = z'.
Proof.
  intros H. pose proof (int_of_str_format_d width z) as Hz.
  rewrite H, int_of_str_format_d in Hz. congruence.
Qed.

(** Two strings of digits followed by an underscore and something agree
    part by part. *)
Lemma split_at_underscore (a a' b b' : string) :
  all_chars is_decimal_char a = true → all_chars is_decimal_char a' = true →
  a +:+ "_" +:+ b = a' +:+ "_" +:+ b' → a = a' ∧ b = b'.
Proof.
  revert a'. induction a as [|c a IH]; intros [|c' a'] Ha Ha' H.
  - change (String "_" b = String "_" b') in H. injection H as ->. auto.
  - change (String "_" b = String c' (a' +:+ "_" +:+ b')) in H.
    injection H as <- _. discriminate.
  - change (String c (a +:+ "_" +:+ b) = String "_" b') in H.
    injection H as -> _. discriminate.
  - change (String c (a +:+ "_" +:+ b) = String c' (a' +:+ "_" +:+ b')) in H.
    injection H as -> H. cbn in Ha, Ha'.
    apply andb_prop in Ha as [_ Ha]. apply andb_prop in Ha' as [_ Ha'].
    destruct (IH a' Ha Ha' H) as [-> ->]. auto.
Qed.

Lemma repeat_char_length (c : ascii) (n : nat) : String.length (repeat_char c n) = n.
Proof. induction n as [|n IH]; cbn; [reflexivity | now rewrite IH]. Qed.

(** X2. Two entries share a directory name exactly when they have the same
    year, the same month, and titles that are equal once spaces are
    underscores and letters are in lower case. *)
Theorem dir_name_of_eq_iff (title title' : string) (year year' month month' : Z) :
  dir_name_of title year month = dir_name_of title' year' month'
  ↔ year = year' ∧ month = month'
    ∧ lower (replace " " "_" title) = lower (replace " " "_" title').
Proof.
  rewrite !dir_name_of_spec, !dir_name_parts, !(replace_one_char " " "_").
  unfold str_int. split.
  - intros H.
    apply split_at_underscore in H as [Hy H]; [|apply all_chars_format_d ..].
    apply split_at_underscore in H as [Hm H]; [|apply all_chars_format_d ..].
    apply format_d_inj in Hy, Hm. auto.
  - now intros (-> & -> & ->).
Qed.

(** X3. The year and the month read back from the two parts of the name
    that [init_content] formats, also a negative one and one of more than
    two digits. *)
Theorem year_month_read_back (year month : Z) :
  int_of_str (str_int year) = Some year
  ∧ int_of_str (format_d 2 month) = Some month
  ∧ (2 ≤ String.length (format_d 2 month))%nat.
Proof.
  split; [apply int_of_str_format_d|]. split; [apply int_of_str_format_d|].
  unfold format_d. rewrite !str_app_length, repeat_char_length. lia.
Qed.

End NameNumbers.

(** * More on the runs *)

(** ** What [init_content] leaves behind *)

Section Frame.
Import OS.

(** [init_content] case by case. *)
Lemma init_content_outcome (title : string) (year month : Z) (content_type : string)
    (ctd : list (string * string)) (w : world) :
  init_content title year month content_type ctd w =
  match dict_get ctd content_type with
  | None => (inl (KeyError content_type), w)
  | Some d =>
      if path_exists (base_dir_of d) (fs w) then
        match makedirs (dir_path_of d title year month) (fs w) with
        | inl e => (inl e, w)
        | inr s1 =>
            match write_text (index_file_path_of d title year month)
                    (frontmatter_of title (strftime_Ymd (clock w (ticks w)))
                       content_type (slug_of title)) s1 with
            | inl e => (inl e, clock_read (with_fs w s1))
            | inr s2 => (inr tt, world_after w (report_of d title year month content_type) s2)
            end
        end
      else (inl (SystemExit ("Error: directory '" +:+ base_dir_of d
                               +:+ "' does not exist")), w)
  end.
Proof.
  destruct (dict_get ctd content_type) as [d|] eqn:Ed.
  - destruct (path_exists (base_dir_of d) (fs w)) eqn:Ex;
      [|now apply init_content_missing].
    destruct (makedirs (dir_path_of d title year month) (fs w)) as [e|s1] eqn:Em.
    + unfold init_content, subscript, os_path_exists, os_makedirs, lift_fs,
        mbind, mret, M_bind, M_ret.
      rewrite Ed. fold (base_dir_of d). rewrite Ex. cbn [negb].
      fold (dir_path_of d title year month). now rewrite Em.
    + destruct (write_text _ _ s1) as [e|s2] eqn:Ew;
        [|now apply init_content_run with (s1 := s1)].
      unfold init_content, subscript, os_path_exists, os_makedirs, open_w_write,
        lift_fs, datetime_now, mbind, mret, M_bind, M_ret.
      rewrite Ed. fold (base_dir_of d). rewrite Ex. cbn [negb].
      fold (dir_path_of d title year month). rewrite Em.
      fold (index_file_path_of d title year month).
      cbn [fs stdout stdin clock ticks with_fs]. now rewrite Ew.
  - unfold init_content, subscript, mbind, M_bind, raise. now rewrite Ed.
Qed.

(** X5. [init_content] prints its report when it succeeds and nothing when
    it fails, and it never reads the standard input. *)
Theorem init_content_report (title : string) (year month : Z) (content_type : string)
    (ctd : list (string * string)) (w w' : world) (r : exn + unit) :
  init_content title year month content_type ctd w = (r, w') →
  stdin w' = stdin w
  ∧ (∀ e, r = inl e → stdout w' = stdout w)
  ∧ (r = inr tt →
     ∃ d, dict_get ctd content_type = Some d
          ∧ stdout w' = stdout w ++ report_of d title year month content_type).
Proof.
  rewrite init_content_outcome.
  destruct (dict_get ctd content_type) as [d|];
    [|intros [= <- <-]; split; [done|split; [done|discriminate]]].
  destruct (path_exists _ _);
    [|intros [= <- <-]; split; [done|split; [done|discriminate]]].
  destruct (makedirs _ _) as [e|s1];
    [intros [= <- <-]; split; [done|split; [done|discriminate]]|].
  destruct (write_text _ _ s1) as [e|s2]; intros [= <- <-]; cbn.
  - split; [done|split; [done|discriminate]].
  - split; [done|]. split; [discriminate|eauto].
Qed.

Lemma makedirs_at_error (p : rpath) (s : filesystem) (e : exn) :
  makedirs_at p s = inl e → is_OSError e = true.
Proof.
  revert s e. induction p as [|c head IH]; intros s e.
  - apply mkdir_at_error.
  - cbn [makedirs_at]. destruct head as [|c' head'].
    + destruct (mkdir_at [c] s) as [e'|s2] eqn:Emk; [|discriminate].
      pose proof (mkdir_at_error _ _ _ Emk) as He. rewrite He. cbn.
      destruct (isdir_at [c] s); [discriminate | congruence].
    + assert (∀ s1, match mkdir_at (c :: c' :: head') s1 with
                    | inl e0 => if is_OSError e0 && isdir_at (c :: c' :: head') s1
                                then inr s1 else inl e0
                    | inr s2 => inr s2
                    end = inl e → is_OSError e = true) as Hlast.
      { intros s1. destruct (mkdir_at _ s1) as [e'|s2] eqn:Emk; [|discriminate].
        pose proof (mkdir_at_error _ _ _ Emk) as He. rewrite He. cbn.
        destruct (isdir_at _ s1); [discriminate | congruence]. }
      destruct (exists_at (c' :: head') s); [apply Hlast|].
      destruct (makedirs_at (c' :: head') s) as [e'|s1] eqn:Em; [|apply Hlast].
      pose proof (IH _ _ Em) as He.
      destruct e'; try discriminate He; try apply Hlast; now intros [= <-].
Qed.

Lemma makedirs_error (p : string) (s : filesystem) (e : exn) :
  makedirs p s = inl e → is_OSError e = true ∨ ∃ msg, e = ValueError msg.
Proof.
  unfold makedirs. destruct (has_nul p); [intros [= <-]; eauto|].
  intros H. left. eapply makedirs_at_error; eauto.
Qed.

Lemma write_text_error (p text : string) (s : filesystem) (e : exn) :
  write_text p text s = inl e → is_OSError e = true ∨ ∃ msg, e = ValueError msg.
Proof.
  unfold write_text. destruct (has_nul p); [intros [= <-]; eauto|].
  destruct (isdir_at _ s); [intros [= <-]; now left|].
  destruct (rpath_of p) as [|c [|c' parent]]; [intros [= <-]; now left|discriminate|].
  destruct (isdir_at _ s); [discriminate|].
  destruct (isfile_at _ s); intros [= <-]; now left.
Qed.

(** X6. A run of [main] that fails ends by [sys.exit], by the argument
    parser, by the end of the input at a prompt, or by an error of the
    file system; never by a [KeyError], since the content type is checked
    before it is looked up. *)
Theorem main_exceptions (argv : namespace) (w w' : world) (e : exn) :
  main argv w = (inl e, w') →
  ((∃ msg, e = SystemExit msg) ∨ (∃ msg, e = ArgparseError msg) ∨ e = EOFError
   ∨ (∃ msg, e = ValueError msg) ∨ is_OSError e = true)
  ∧ ∀ k, e ≠ KeyError k.
Proof.
  intros Hmain.
  assert ((∃ msg, e = SystemExit msg) ∨ (∃ msg, e = ArgparseError msg) ∨ e = EOFError
          ∨ (∃ msg, e = ValueError msg) ∨ is_OSError e = true) as H.
  { pose proof (main_cases argv w) as H.
    destruct (Spec.gathered argv (stdin w) (clock w (ticks w)))
      as [e0|[[[title ct] y] m]] eqn:Eg.
    - destruct H as (w1 & H1 & _). rewrite H1 in Hmain. injection Hmain as -> _.
      revert Eg. unfold Spec.gathered, Spec.rejected_choice.
      destruct (arg_type argv) as [v|];
        [destruct (bool_decide (v ∈ content_types)); [|intros [= <-]; eauto 6]|];
        (destruct (Spec.supplied_title argv (stdin w)) as [t|]; [|intros [= <-]; eauto 6];
         destruct (String.eqb (strip t) ""); [intros [= <-]; eauto 6|];
         destruct (Spec.supplied_type argv (stdin w)) as [ty|]; [|intros [= <-]; eauto 6];
         destruct (bool_decide (ty ∈ content_types)); [discriminate|intros [= <-]; eauto 6]).
    - destruct H as (wm & H1 & _). rewrite H1, init_content_outcome in Hmain.
      assert (ct ∈ content_types) as Hct.
      { revert Eg. unfold Spec.gathered.
        destruct (Spec.rejected_choice argv); [discriminate|].
        destruct (Spec.supplied_title argv (stdin w)) as [t|]; [|discriminate].
        destruct (String.eqb (strip t) ""); [discriminate|].
        destruct (Spec.supplied_type argv (stdin w)) as [ty|]; [|discriminate].
        destruct (bool_decide (ty ∈ content_types)) eqn:E; [|discriminate].
        intros [= _ <- _ _]. now apply bool_decide_eq_true in E. }
      destruct (dict_get_content_type _ Hct) as [d Ed]. rewrite Ed in Hmain.
      destruct (path_exists _ _); [|injection Hmain as <- _; eauto 6].
      destruct (makedirs _ _) as [e1|s1] eqn:Em.
      + injection Hmain as <- _. apply makedirs_error in Em as [?|?]; auto 6.
      + destruct (write_text _ _ s1) as [e2|s2] eqn:Ew; [|discriminate].
        injection Hmain as <- _. apply write_text_error in Ew as [?|?]; auto 6. }
  split; [exact H|]. intros k ->.
  destruct H as [[? [=]]|[[? [=]]|[[=]|[[? [=]]|[=]]]]].
Qed.

End Frame.

(** ** Where the entry lands *)

Section Location.
Import OS.

Lemma split_on_nonnil (sep : ascii) (s : string) : split_on sep s ≠ [].
Proof.
  destruct s as [|c s]; cbn; [discriminate|].
  destruct (Ascii.eqb c sep); [discriminate|].
  destruct (split_on sep s); discriminate.
Qed.

Lemma split_on_app (sep : ascii) (a b : string) :
  split_on sep (a +:+ String sep b) = split_on sep a ++ split_on sep b.
Proof.
  induction a as [|c a IH].
  - change (split_on sep (String sep b) = [EmptyString] ++ split_on sep b).
    cbn. now rewrite Ascii.eqb_refl.
  - change (split_on sep (String c (a +:+ String sep b))
            = split_on sep (String c a) ++ split_on sep b).
    cbn [split_on]. rewrite IH. destruct (Ascii.eqb c sep); [reflexivity|].
    pose proof (split_on_nonnil sep a) as Hne.
    destruct (split_on sep a); [contradiction | reflexivity].
Qed.

Lemma split_on_single (sep : ascii) (s : string) :
  contains_char sep s = false → split_on sep s = [s].
Proof.
  induction s as [|c s IH]; [reflexivity|].
  cbn. intros [Hc Hs]%orb_false_elim.
  rewrite Ascii.eqb_sym, Hc, (IH Hs). reflexivity.
Qed.

Lemma prefix_slash_false (s : string) :
  contains_char "/" s = false → String.prefix "/" s = false.
Proof.
  destruct s as [|c s]; [reflexivity|].
  intros [Hc _]%orb_false_elim. rewrite (prefix_one "/" c). now rewrite Ascii.eqb_sym.
Qed.

(** A name without a slash below a path is one more component. *)
Lemma rpath_of_child (a name : string) :
  a ≠ EmptyString → name ≠ EmptyString → contains_char "/" name = false →
  rpath_of (a +:+ "/" +:+ name) = name :: rpath_of a.
Proof.
  intros Ha Hname Hno. unfold rpath_of.
  assert (String.prefix "/" (a +:+ "/" +:+ name) = String.prefix "/" a) as ->.
  { destruct a as [|c a']; [contradiction|].
    change (String.prefix "/" (String c (a' +:+ "/" +:+ name))
            = String.prefix "/" (String c a')).
    now rewrite !(prefix_one "/" c). }
  change (a +:+ "/" +:+ name) with (a +:+ String "/" name).
  rewrite split_on_app, (split_on_single _ _ Hno), filter_app.
  rewrite (filter_cons_True _ name []) by (now destruct name).
  rewrite filter_nil, app_assoc, rev_unit. reflexivity.
Qed.

Lemma rev_app_app (a b acc : string) :
  String.rev_app (a +:+ b) acc = String.rev_app b (String.rev_app a acc).
Proof.
  revert acc. induction a as [|c a IH]; intros acc; [reflexivity|].
  change (String.rev_app (a +:+ b) (String c acc)
          = String.rev_app b (String.rev_app a (String c acc))).
  apply IH.
Qed.

Lemma rev_app_no_slash (s acc : string) :
  s ≠ EmptyString → contains_char "/" s = false →
  String.prefix "/" (String.rev_app s acc) = false.
Proof.
  revert acc. induction s as [|c s IH]; intros acc Hne; [contradiction|].
  intros [Hc Hs]%orb_false_elim. cbn [String.rev_app].
  destruct s as [|c' s'].
  - cbn [String.rev_app]. rewrite (prefix_one "/" c). now rewrite Ascii.eqb_sym.
  - now apply IH.
Qed.

Lemma path_join_child (a name : string) :
  a ≠ EmptyString → String.prefix "/" (String.rev a) = false →
  contains_char "/" name = false →
  path_join a name = a +:+ "/" +:+ name.
Proof.
  intros Ha Hrev Hno. unfold path_join.
  rewrite (prefix_slash_false _ Hno), Hrev. now destruct a.
Qed.

Lemma decimal_no_slash (s : string) :
  all_chars is_decimal_char s = true → contains_char "/" s = false.
Proof.
  induction s as [|c s IH]; [reflexivity|].
  cbn [contains_char all_chars]. intros [Hc Hs]%andb_prop.
  rewrite (IH Hs), orb_false_r. apply Ascii.eqb_neq. intros <-. discriminate Hc.
Qed.

(** Without a slash in the title there is none in the directory name. *)
Lemma dir_name_no_slash (title : string) (year month : Z) :
  contains_char "/" title = false →
  contains_char "/" (dir_name_of title year month) = false
  ∧ dir_name_of title year month ≠ EmptyString.
Proof.
  intros Hno. rewrite dir_name_of_spec, dir_name_parts. split.
  - rewrite !contains_char_app.
    rewrite (decimal_no_slash (str_int year)) by apply all_chars_format_d.
    rewrite (decimal_no_slash (format_d 2 month)) by apply all_chars_format_d.
    unfold lower. rewrite (contains_char_map _ _ _ lower_char_slash).
    rewrite subst_char_other by (assumption || discriminate). reflexivity.
  - apply app_nonempty_r. discriminate.
Qed.

Lemma dict_get_dirs (content_type d : string) :
  dict_get content_types_to_dir content_type = Some d →
  d = "posts"%string ∨ d = "notes"%string.
Proof.
  unfold content_types_to_dir. cbn.
  destruct (String.eqb content_type "post"); [intros [= <-]; now left|].
  destruct (String.eqb content_type "note"); [intros [= <-]; now right|discriminate].
Qed.

(** The two paths of an entry whose title has no slash. *)
Lemma entry_paths (content_type d title : string) (year month : Z) :
  dict_get content_types_to_dir content_type = Some d →
  contains_char "/" title = false →
  rpath_of (base_dir_of d) = [d; "content"%string]
  ∧ rpath_of (dir_path_of d title year month)
    = [dir_name_of title year month; d; "content"%string]
  ∧ rpath_of (index_file_path_of d title year month)
    = ["index.md"%string; dir_name_of title year month; d; "content"%string].
Proof.
  intros Hd Hno. destruct (dir_name_no_slash title year month Hno) as [Hslash Hne].
  assert (rpath_of (base_dir_of d) = [d; "content"%string]
          ∧ base_dir_of d ≠ EmptyString
          ∧ String.prefix "/" (String.rev (base_dir_of d)) = false) as (Hb & Hbne & Hbrev).
  { apply dict_get_dirs in Hd as [->| ->]; repeat split; discriminate || reflexivity. }
  assert (dir_path_of d title year month
          = base_dir_of d +:+ "/" +:+ dir_name_of title year month) as Hdir.
  { unfold dir_path_of. now apply path_join_child. }
  split; [exact Hb|]. split.
  - rewrite Hdir, rpath_of_child by assumption. now rewrite Hb.
  - unfold index_file_path_of. rewrite path_join_child.
    + rewrite rpath_of_child; [|rewrite Hdir; now apply app_nonempty_r|discriminate|reflexivity].
      rewrite Hdir, rpath_of_child by assumption. now rewrite Hb.
    + rewrite Hdir. apply app_nonempty_r. discriminate.
    + rewrite Hdir. unfold String.rev.
      change (base_dir_of d +:+ "/" +:+ dir_name_of title year month)
        with (base_dir_of d +:+ String "/" (dir_name_of title year month)).
      rewrite rev_app_app.
      change (String "/" (dir_name_of title year month))
        with ("/" +:+ dir_name_of title year month).
      rewrite rev_app_app. now apply rev_app_no_slash.
    + reflexivity.
Qed.

(** X7. For a title without a slash, a call of [init_content] that succeeds
    adds one directory at most, the entry directly below the base
    directory, and sets one file, [index.md] directly in the entry;
    everything else is as before. *)
Theorem init_content_entry (title : string) (year month : Z) (content_type : string)
    (w w' : world) :
  contains_char "/" title = false →
  init_content title year month content_type content_types_to_dir w = (inr tt, w') →
  ∃ d, dict_get content_types_to_dir content_type = Some d
    ∧ dirs (fs w')
      = {[ [dir_name_of title year month; d; "content"%string] ]} ∪ dirs (fs w)
    ∧ files (fs w')
      = <[ ["index.md"%string; dir_name_of title year month; d; "content"%string]
           := frontmatter_of title (strftime_Ymd (clock w (ticks w))) content_type
                (slug_of title) ]> (files (fs w)).
Proof.
  intros Hno (d & s1 & s2 & Ed & Hex & Hm & Hw & ->)%init_content_inv.
  destruct (entry_paths _ _ _ year month Ed Hno) as (Hb & Hp & Hi).
  exists d. split; [assumption|]. cbn [world_after fs].
  apply write_text_ok in Hw as ->. cbn [dirs files]. rewrite Hi.
  unfold makedirs in Hm. destruct (has_nul _); [discriminate|]. rewrite Hp in Hm.
  unfold path_exists in Hex. apply andb_prop in Hex as [_ Hex]. rewrite Hb in Hex.
  apply makedirs_at_step in Hm as (s0 & Habove & Hlast).
  assert (s0 = fs w) as ->.
  { destruct Habove as [[? _]|[[_ ?]|[[? _]|(? & _)]]]; try assumption; congruence. }
  destruct Hlast as [Hmk|[-> Hd]].
  - apply mkdir_at_ok in Hmk as [-> _]. auto.
  - split; [|reflexivity]. symmetry. apply subseteq_union_1_L.
    apply singleton_subseteq_l. unfold isdir_at in Hd.
    now apply bool_decide_eq_true in Hd.
Qed.

End Location.

(** ** What a call can touch *)

Section Touched.
Import OS.

(** With a title without a slash and the base directory there,
    [makedirs] adds the entry directory and nothing else. *)
Lemma makedirs_entry (title : string) (year month : Z) (content_type d : string)
    (s s1 : filesystem) :
  contains_char "/" title = false →
  dict_get content_types_to_dir content_type = Some d →
  path_exists (base_dir_of d) s = true →
  makedirs (dir_path_of d title year month) s = inr s1 →
  files s1 = files s
  ∧ dirs s1 = {[ [dir_name_of title year month; d; "content"%string] ]} ∪ dirs s.
Proof.
  intros Hno Ed Hex Hm.
  destruct (entry_paths _ _ _ year month Ed Hno) as (Hb & Hp & _).
  unfold makedirs in Hm. destruct (has_nul _); [discriminate|]. rewrite Hp in Hm.
  unfold path_exists in Hex. apply andb_prop in Hex as [_ Hex]. rewrite Hb in Hex.
  apply makedirs_at_step in Hm as (s0 & Habove & Hlast).
  assert (s0 = s) as ->.
  { destruct Habove as [[? _]|[[_ ?]|[[? _]|(? & _)]]]; try assumption; congruence. }
  destruct Hlast as [Hmk|[-> Hd]].
  - apply mkdir_at_ok in Hmk as [-> _]. auto.
  - split; [reflexivity|]. symmetry. apply subseteq_union_1_L.
    apply singleton_subseteq_l. unfold isdir_at in Hd.
    now apply bool_decide_eq_true in Hd.
Qed.

(** X4. For a title without a slash, however [init_content] ends: no
    directory is gone, the one directory that can be new is the entry
    directly below the base directory, and the one file that can differ
    from before is the [index.md] of the entry. *)
Theorem init_content_frame (title : string) (year month : Z) (content_type : string)
    (w w' : world) (r : exn + unit) :
  contains_char "/" title = false →
  init_content title year month content_type content_types_to_dir w = (r, w') →
  dirs (fs w) ⊆ dirs (fs w')
  ∧ (∀ p, p ∈ dirs (fs w') →
          p ∈ dirs (fs w)
          ∨ ∃ d, dict_get content_types_to_dir content_type = Some d
                 ∧ p = [dir_name_of title year month; d; "content"%string])
  ∧ (∀ k, files (fs w') !! k ≠ files (fs w) !! k →
          ∃ d, dict_get content_types_to_dir content_type = Some d
               ∧ k = ["index.md"%string; dir_name_of title year month; d;
                      "content"%string]).
Proof.
  intros Hno. rewrite init_content_outcome.
  assert (∀ w0 : world, fs w0 = fs w →
            dirs (fs w) ⊆ dirs (fs w0)
            ∧ (∀ p, p ∈ dirs (fs w0) →
                    p ∈ dirs (fs w)
                    ∨ ∃ d, dict_get content_types_to_dir content_type = Some d
                           ∧ p = [dir_name_of title year month; d; "content"%string])
            ∧ (∀ k, files (fs w0) !! k ≠ files (fs w) !! k →
                    ∃ d, dict_get content_types_to_dir content_type = Some d
                         ∧ k = ["index.md"%string; dir_name_of title year month; d;
                                "content"%string])) as Hsame.
  { intros w0 ->. split; [reflexivity|]. split; [auto | congruence]. }
  destruct (dict_get content_types_to_dir content_type) as [d|] eqn:Ed;
    [|intros [= <- <-]; now apply Hsame].
  destruct (path_exists _ _) eqn:Hex; [|intros [= <- <-]; now apply Hsame].
  destruct (makedirs _ _) as [e|s1] eqn:Hm; [intros [= <- <-]; now apply Hsame|].
  destruct (makedirs_entry _ _ _ _ _ _ _ Hno Ed Hex Hm) as [Hf Hd].
  destruct (entry_paths _ _ _ year month Ed Hno) as (_ & _ & Hi).
  assert (∀ p, p ∈ dirs s1 →
               p ∈ dirs (fs w)
               ∨ ∃ d0, Some d = Some d0
                       ∧ p = [dir_name_of title year month; d0; "content"%string]) as Hnew.
  { intros p Hp. rewrite Hd in Hp. apply elem_of_union in Hp as [Hp|Hp]; [|now left].
    apply elem_of_singleton in Hp. right. eauto. }
  assert (dirs (fs w) ⊆ dirs s1) as Hsub by (rewrite Hd; apply union_subseteq_r).
  destruct (write_text _ _ s1) as [e|s2] eqn:Hw; intros [= <- <-]; cbn.
  - split; [exact Hsub|]. split; [exact Hnew|]. intros k Hk. congruence.
  - apply write_text_ok in Hw as ->. cbn. split; [exact Hsub|]. split; [exact Hnew|].
    intros k Hk. exists d. split; [reflexivity|]. rewrite <- Hi.
    destruct (decide (rpath_of (index_file_path_of d title year month) = k))
      as [<-|Hne]; [reflexivity|].
    rewrite lookup_insert_ne, Hf in Hk by assumption. congruence.
Qed.

End Touched.

(** ** The inputs of [main] *)

Section Inputs.
Import OS.

#[local] Arguments strip : simpl never.

(** What [Spec.gathered] returns when it returns. *)
Lemma gathered_inr (argv : namespace) (lines : list string) (now : datetime)
    (title content_type : string) (year month : Z) :
  Spec.gathered argv lines now = inr (title, content_type, year, month) →
  (∃ t, Spec.supplied_title argv lines = Some t ∧ title = strip t)
  ∧ title ≠ EmptyString
  ∧ Spec.supplied_type argv lines = Some content_type
  ∧ content_type ∈ content_types
  ∧ year = or_int (arg_year argv) (dt_year now)
  ∧ month = or_int (arg_month argv) (dt_month now).
Proof.
  unfold Spec.gathered. destruct (Spec.rejected_choice argv); [discriminate|].
  destruct (Spec.supplied_title argv lines) as [t|]; [|discriminate].
  destruct (String.eqb_spec (strip t) "") as [|Hne]; [discriminate|].
  destruct (Spec.supplied_type argv lines) as [ty|]; [|discriminate].
  destruct (bool_decide (ty ∈ content_types)) eqn:E; [|discriminate].
  apply bool_decide_eq_true in E. intros [= <- <- <- <-]. eauto 10.
Qed.

(** X8. When the input ends at a prompt, for the title or, once the title
    is known, for the content type, [main] ends by [EOFError], with the
    exit status 1 and the file system as it was. *)
Theorem main_end_of_input (argv : namespace) (w : world) :
  Spec.rejected_choice argv = None →
  Spec.supplied_title argv (stdin w) = None
  ∨ (∃ t, Spec.supplied_title argv (stdin w) = Some t ∧ strip t ≠ EmptyString
          ∧ Spec.supplied_type argv (stdin w) = None) →
  ∃ w', main argv w = (inl EOFError, w')
        ∧ exit_status (main argv w).1 = 1 ∧ fs w' = fs w.
Proof.
  intros Hok Heof. pose proof (main_cases argv w) as H.
  unfold Spec.gathered in H. rewrite Hok in H.
  destruct Heof as [Ht|(t & Ht & Hne & Hty)]; rewrite Ht in H.
  - destruct H as (w' & H & Hfs). exists w'. rewrite H. auto.
  - apply String.eqb_neq in Hne. rewrite Hne, Hty in H.
    destruct H as (w' & H & Hfs). exists w'. rewrite H. auto.
Qed.

Lemma rstrip_cons (c : ascii) (s : string) :
  rstrip (String c s)
  = match rstrip s with
    | EmptyString => if isspace c then EmptyString else String c EmptyString
    | r => String c r
    end.
Proof. reflexivity. Qed.

Lemma rstrip_idem (s : string) : rstrip (rstrip s) = rstrip s.
Proof.
  induction s as [|c s IH]; [reflexivity|].
  rewrite rstrip_cons. destruct (rstrip s) as [|c' r] eqn:E.
  - destruct (isspace c) eqn:Ec; [reflexivity|].
    rewrite rstrip_cons. cbn. now rewrite Ec.
  - rewrite rstrip_cons, IH. reflexivity.
Qed.

Lemma lstrip_rstrip (s : string) : lstrip (rstrip (lstrip s)) = rstrip (lstrip s).
Proof.
  induction s as [|c s IH]; [reflexivity|].
  cbn [lstrip]. destruct (isspace c) eqn:Ec; [exact IH|].
  rewrite rstrip_cons. destruct (rstrip s); rewrite ?Ec; cbn [lstrip]; now rewrite Ec.
Qed.

Lemma strip_idem (s : string) : strip (strip s) = strip s.
Proof. unfold strip. now rewrite lstrip_rstrip, rstrip_idem. Qed.

(** X9. White space around the title given with [--title] does not count:
    the run is that of the stripped title, as long as something is left
    of it. *)
Theorem main_title_stripped (t : string) (ty : option string) (yr mo : option Z)
    (w : world) :
  strip t ≠ EmptyString →
  main {| arg_title := Some t; arg_type := ty; arg_year := yr; arg_month := mo |} w
  = main {| arg_title := Some (strip t); arg_type := ty;
            arg_year := yr; arg_month := mo |} w.
Proof.
  intros Hne.
  assert (t ≠ EmptyString) as Ht by (intros ->; now apply Hne).
  pose proof (strip_idem t) as Hidem.
  destruct t as [|c t0]; [contradiction|].
  destruct (strip (String c t0)) as [|c' t'] eqn:E; [contradiction|].
  unfold main, parse_args, or_str, mbind, mret, M_bind, M_ret, raise.
  cbn [arg_title arg_type arg_year arg_month].
  destruct ty as [v|]; [destruct (bool_decide (v ∈ content_types))|];
    cbn [arg_title arg_type arg_year arg_month]; rewrite ?E, ?Hidem; reflexivity.
Qed.

(** X10. The date of the frontmatter is the day of the run, read from the
    clock after the directory was made, whatever [--year] and [--month]
    say; these two, or the first reading of the clock in their place,
    name the directory. *)
Theorem main_date_is_today (argv : namespace) (w w' : world) :
  main argv w = (inr tt, w') →
  ∃ d title content_type fm,
    files (fs w')
      !! rpath_of (index_file_path_of d title
                     (or_int (arg_year argv) (dt_year (clock w (ticks w))))
                     (or_int (arg_month argv) (dt_month (clock w (ticks w)))))
    = Some (Spec.render fm)
    ∧ Spec.fm_title fm = title ∧ Spec.fm_type fm = content_type
    ∧ Spec.fm_date fm = strftime_Ymd (clock w (S (ticks w))).
Proof.
  intros Hmain. pose proof (main_cases argv w) as H.
  destruct (Spec.gathered argv (stdin w) (clock w (ticks w)))
    as [e|[[[title ct] y] m]] eqn:Eg.
  - destruct H as (w1 & H & _). congruence.
  - apply gathered_inr in Eg as (_ & _ & _ & _ & -> & ->).
    destruct H as (wm & H & _ & Hclock & Hticks). rewrite H in Hmain.
    apply init_content_written in Hmain as (d & _ & Hf & _).
    rewrite Hclock, Hticks, frontmatter_of_render in Hf.
    exists d, title, ct. eexists. split; [exact Hf|]. auto.
Qed.

(** X11. A second call of [init_content] on the same day, on what the first
    left, leaves the file system exactly as it was. *)
Theorem init_content_same_day (title : string) (year month : Z)
    (content_type : string) (w w1 w2 : world) :
  init_content title year month content_type content_types_to_dir w = (inr tt, w1) →
  fs w2 = fs w1 →
  strftime_Ymd (clock w2 (ticks w2)) = strftime_Ymd (clock w (ticks w)) →
  ∃ w3, init_content title year month content_type content_types_to_dir w2 = (inr tt, w3)
        ∧ fs w3 = fs w1.
Proof.
  intros Hrun Hfs Hday.
  destruct (init_content_written _ _ _ _ _ _ Hrun) as (d & Ed & Hf & _).
  destruct (init_content_rerun _ _ _ _ _ _ w2 Hrun Hfs)
    as (d' & w3 & Ed' & Hrun' & Hdirs & _ & Hfiles).
  assert (d' = d) as -> by congruence.
  exists w3. split; [exact Hrun'|].
  rewrite Hday, (insert_id _ _ _ Hf) in Hfiles.
  destruct (fs w3), (fs w1). cbn in *. congruence.
Qed.

Lemma init_content_with_stdin (title : string) (year month : Z) (content_type : string)
    (ctd : list (string * string)) (w : world) (lines : list string) :
  init_content title year month content_type ctd (with_stdin w lines)
  = ((init_content title year month content_type ctd w).1,
     with_stdin (init_content title year month content_type ctd w).2 lines).
Proof.
  rewrite !init_content_outcome. cbn [with_stdin fs clock ticks].
  destruct (dict_get ctd content_type) as [d|]; [|reflexivity].
  destruct (path_exists _ _); [|reflexivity].
  destruct (makedirs _ _) as [e|s1]; [reflexivity|].
  destruct (write_text _ _ s1); reflexivity.
Qed.

(** X12. With a title and a type on the command line, what is on the
    standard input plays no part: the run is the same with other lines,
    and the lines are all still there. *)
Theorem main_options_ignore_stdin (argv : namespace) (w : world) (lines : list string)
    (c : ascii) (s v : string) :
  arg_title argv = Some (String c s) → arg_type argv = Some v →
  main argv (with_stdin w lines)
  = ((main argv w).1, with_stdin (main argv w).2 lines).
Proof.
  destruct argv as [ti ty yr mo]. cbn [arg_title arg_type]. intros -> ->.
  assert (∀ x : (exn + (string * string * Z * Z)) * world,
            gather_inputs {| arg_title := Some (String c s); arg_type := Some v;
                             arg_year := yr; arg_month := mo |} w = x →
            gather_inputs {| arg_title := Some (String c s); arg_type := Some v;
                             arg_year := yr; arg_month := mo |} (with_stdin w lines)
            = (x.1, with_stdin x.2 lines)) as Hg.
  { intros x <-.
    unfold gather_inputs, parse_args, or_str, datetime_now, sys_exit, raise,
      mbind, mret, M_bind, M_ret.
    remember content_types as known eqn:Hknown.
    remember (str_list known) as listed eqn:Hlisted.
    cbn. destruct (bool_decide (v ∈ known)) eqn:Ev; [|reflexivity].
    cbn. destruct (String.eqb (strip (String c s)) ""); [reflexivity|].
    destruct v as [|c' v'].
    - apply bool_decide_eq_true in Ev. exfalso. revert Ev.
      rewrite Hknown. unfold content_types. cbn. intros H.
      repeat (apply elem_of_cons in H as [?|H]; [discriminate|]).
      now apply elem_of_nil in H.
    - rewrite Ev. reflexivity. }
  rewrite !main_gather.
  rewrite (Hg _ eq_refl).
  destruct (gather_inputs _ w) as [[e|[[[title ct] y] m]] wm]; [reflexivity|].
  cbn [fst snd]. apply init_content_with_stdin.
Qed.

End Inputs.

(** ** The further theorems at work on the sample site *)

Section MoreWitnesses.
Import OS.

Lemma init_content_frame_witness :
  let w := Sample.start [] Sample.site in
  let w' := Sample.my_post_created in
  contains_char "/" "My Post" = false
  ∧ init_content "My Post" 2024 3 "post" content_types_to_dir w = (inr tt, w')
  ∧ dirs (fs w) ⊆ dirs (fs w')
  ∧ (∀ p, p ∈ dirs (fs w') →
          p ∈ dirs (fs w)
          ∨ ∃ d, dict_get content_types_to_dir "post" = Some d
                 ∧ p = [dir_name_of "My Post" 2024 3; d; "content"%string])
  ∧ (∀ k, files (fs w') !! k ≠ files (fs w) !! k →
          ∃ d, dict_get content_types_to_dir "post" = Some d
               ∧ k = ["index.md"%string; dir_name_of "My Post" 2024 3; d;
                      "content"%string]).
Proof.
  intros w w'. split; [reflexivity|]. split; [vm_compute; reflexivity|].
  apply (init_content_frame "My Post" 2024 3 "post" w w' (inr tt));
    [reflexivity | vm_compute; reflexivity].
Defined.

Lemma init_content_report_witness :
  let w := Sample.start [] Sample.site in
  let w' := Sample.my_post_created in
  let r : exn + unit := inr tt in
  init_content "My Post" 2024 3 "post" content_types_to_dir w = (r, w')
  ∧ stdin w' = stdin w
  ∧ (∀ e, r = inl e → stdout w' = stdout w)
  ∧ (r = inr tt →
     ∃ d, dict_get content_types_to_dir "post" = Some d
          ∧ stdout w' = stdout w ++ report_of d "My Post" 2024 3 "post").
Proof.
  intros w w' r. split; [vm_compute; reflexivity|].
  apply (init_content_report "My Post" 2024 3 "post" content_types_to_dir w w' r).
  vm_compute; reflexivity.
Defined.

Lemma main_exceptions_witness :
  let w := Sample.start [] Sample.site in
  let e := SystemExit "Error: empty title" in
  main Sample.blank_flags w = (inl e, w)
  ∧ ((∃ msg, e = SystemExit msg) ∨ (∃ msg, e = ArgparseError msg) ∨ e = EOFError
     ∨ (∃ msg, e = ValueError msg) ∨ is_OSError e = true)
  ∧ ∀ k, e ≠ KeyError k.
Proof.
  intros w e. split; [vm_compute; reflexivity|].
  apply (main_exceptions Sample.blank_flags w w e). vm_compute; reflexivity.
Defined.

Lemma init_content_entry_witness :
  let w := Sample.start [] Sample.site in
  let w' := Sample.my_post_created in
  contains_char "/" "My Post" = false
  ∧ init_content "My Post" 2024 3 "post" content_types_to_dir w = (inr tt, w')
  ∧ ∃ d, dict_get content_types_to_dir "post" = Some d
      ∧ dirs (fs w')
        = {[ [dir_name_of "My Post" 2024 3; d; "content"%string] ]} ∪ dirs (fs w)
      ∧ files (fs w')
        = <[ ["index.md"%string; dir_name_of "My Post" 2024 3; d; "content"%string]
             := frontmatter_of "My Post" (strftime_Ymd (clock w (ticks w))) "post"
                  (slug_of "My Post") ]> (files (fs w)).
Proof.
  intros w w'. split; [reflexivity|]. split; [vm_compute; reflexivity|].
  apply (init_content_entry "My Post" 2024 3 "post" w w');
    [reflexivity | vm_compute; reflexivity].
Defined.

Lemma main_end_of_input_witness :
  let w := Sample.start [] Sample.site in
  Spec.rejected_choice Trial.no_title = None
  ∧ (Spec.supplied_title Trial.no_title (stdin w) = None
     ∨ (∃ t, Spec.supplied_title Trial.no_title (stdin w) = Some t
             ∧ strip t ≠ EmptyString
             ∧ Spec.supplied_type Trial.no_title (stdin w) = None))
  ∧ ∃ w', main Trial.no_title w = (inl EOFError, w')
          ∧ exit_status (main Trial.no_title w).1 = 1 ∧ fs w' = fs w.
Proof.
  intros w.
  assert (Spec.rejected_choice Trial.no_title = None) as H1 by (vm_compute; reflexivity).
  assert (Spec.supplied_title Trial.no_title (stdin w) = None
          ∨ (∃ t, Spec.supplied_title Trial.no_title (stdin w) = Some t
                  ∧ strip t ≠ EmptyString
                  ∧ Spec.supplied_type Trial.no_title (stdin w) = None)) as H2
    by (left; reflexivity).
  split; [exact H1|]. split; [exact H2|].
  exact (main_end_of_input Trial.no_title w H1 H2).
Defined.

Lemma main_title_stripped_witness :
  let w := Sample.start [] Sample.site in
  strip Trial.padded ≠ EmptyString
  ∧ main {| arg_title := Some Trial.padded; arg_type := Some "post"%string;
            arg_year := Some 2024; arg_month := Some 3 |} w
    = main {| arg_title := Some (strip Trial.padded); arg_type := Some "post"%string;
              arg_year := Some 2024; arg_month := Some 3 |} w.
Proof.
  intros w. split; [discriminate|].
  apply (main_title_stripped Trial.padded (Some "post"%string) (Some 2024) (Some 3) w).
  discriminate.
Defined.

Lemma main_date_is_today_witness :
  let w := Sample.start [] Sample.site in
  let w' := Trial.my_post_run.2 in
  main Trial.my_post_flags w = (inr tt, w')
  ∧ ∃ d title content_type fm,
      files (fs w')
        !! rpath_of (index_file_path_of d title
                       (or_int (arg_year Trial.my_post_flags) (dt_year (clock w (ticks w))))
                       (or_int (arg_month Trial.my_post_flags) (dt_month (clock w (ticks w)))))
      = Some (Spec.render fm)
      ∧ Spec.fm_title fm = title ∧ Spec.fm_type fm = content_type
      ∧ Spec.fm_date fm = strftime_Ymd (clock w (S (ticks w))).
Proof.
  intros w w'. split; [vm_compute; reflexivity|].
  apply (main_date_is_today Trial.my_post_flags w w'). vm_compute; reflexivity.
Defined.

Lemma init_content_same_day_witness :
  let w := Sample.start [] Sample.site in
  init_content "My Post" 2024 3 "post" content_types_to_dir w
  = (inr tt, Sample.my_post_created)
  ∧ fs Trial.same_day = fs Sample.my_post_created
  ∧ strftime_Ymd (clock Trial.same_day (ticks Trial.same_day))
    = strftime_Ymd (clock w (ticks w))
  ∧ ∃ w3, init_content "My Post" 2024 3 "post" content_types_to_dir Trial.same_day
          = (inr tt, w3)
          ∧ fs w3 = fs Sample.my_post_created.
Proof.
  intros w. split; [vm_compute; reflexivity|]. split; [reflexivity|].
  split; [reflexivity|].
  apply (init_content_same_day "My Post" 2024 3 "post" w Sample.my_post_created
           Trial.same_day); [vm_compute; reflexivity | reflexivity | reflexivity].
Defined.

Lemma main_options_ignore_stdin_witness :
  let w := Sample.start [] Sample.site in
  let lines := ["never read"%string] in
  arg_title Trial.my_post_flags = Some (String "M" "y Post")
  ∧ arg_type Trial.my_post_flags = Some "post"%string
  ∧ main Trial.my_post_flags (with_stdin w lines)
    = ((main Trial.my_post_flags w).1, with_stdin (main Trial.my_post_flags w).2 lines).
Proof.
  intros w lines. split; [reflexivity|]. split; [reflexivity|].
  apply (main_options_ignore_stdin Trial.my_post_flags w lines "M" "y Post" "post");
    reflexivity.
Defined.

End MoreWitnesses.
